(** * Ecommerce-Backend: the controllers over a relational store

    A shallow embedding of the request handlers of
    [src/controllers/shoppingCart.controller.js],
    [src/controllers/product.controller.js] and
    [src/controllers/customer.controller.js].

    Every handler is a function from its request inputs and the database
    to the database it leaves behind and the outcome it sends.  Tables are
    lists of rows in insertion order; the ORM calls the handlers make
    ([findAll], [findOne], [upsert], [destroy], [findOrCreate], ...) are
    functions on those lists.  What the model declarations of
    [src/database/models] decide (unique keys, column defaults, the primary
    key of a table) is gathered in the record [Schema], over which the
    handlers are parameterised. *)

From Stdlib Require Import ZArith List String Ascii Bool Lia DecimalString.
Import ListNotations.

Local Open Scope string_scope.
Local Open Scope list_scope.
Local Open Scope Z_scope.

(** ** JavaScript values used by the handlers *)

Module Js.

(** [s.substring(n)]: the string without its first [n] characters. *)
Fixpoint substring (n : nat) (s : string) : string :=
  match n, s with
  | O, _ => s
  | S _, EmptyString => EmptyString
  | S n', String _ s' => substring n' s'
  end.

(** [s.substring(0, n)]: the first [n] characters. *)
Fixpoint substring0 (n : nat) (s : string) : string :=
  match n, s with
  | O, _ => EmptyString
  | S _, EmptyString => EmptyString
  | S n', String c s' => String c (substring0 n' s')
  end.

(** Truthiness of [decodedToken.customer_id]: [undefined] and [0] are
    falsy, every other number is truthy. *)
Definition truthy (v : option Z) : bool :=
  match v with
  | Some z => negb (z =? 0)
  | None => false
  end.

(** Truthiness of a string-or-null value, as in [address_1 || null]. *)
Definition or_null (v : option string) : option string :=
  match v with
  | Some EmptyString => None
  | _ => v
  end.

(** The decimal text of an integer, as a template literal prints it. *)
Definition string_of_Z (z : Z) : string :=
  NilEmpty.string_of_int (Z.to_int z).

(** JavaScript numbers as far as the pagination arithmetic needs them:
    an integer or [NaN].  The operations below are the exact ones; they are
    what the double-precision operations of JavaScript compute as long as
    the operands and the result are [safe]. *)
Inductive num : Type :=
| NaN
| Num (z : Z).

Definition mul (a b : num) : num :=
  match a, b with
  | Num x, Num y => Num (x * y)
  | _, _ => NaN
  end.

Definition sub (a b : num) : num :=
  match a, b with
  | Num x, Num y => Num (x - y)
  | _, _ => NaN
  end.

(** A field of a request body: absent ([undefined]), or present with a
    value. *)
Inductive field (A : Type) : Type :=
| Absent
| Present (v : A).

Arguments Absent {A}.
Arguments Present {A} v.

(** What an update writes for a field: an absent field is left out of the
    statement, and the stored value stays. *)
Definition assigned {A : Type} (f : field A) (stored : A) : A :=
  match f with
  | Absent => stored
  | Present v => v
  end.

(** An integer that double precision holds exactly, with all integers
    between it and 0. *)
Definition safe (z : Z) : Prop := Z.abs z <= 2 ^ 53.

End Js.

(** ** Outcomes *)

(** The projection [attributes: ['item_id', 'cart_id', 'product_id',
    'attributes', 'quantity']] of a cart row. *)
Record CartLine : Type := mkCartLine {
  line_item_id : Z;
  line_cart_id : string;
  line_product_id : Z;
  line_attributes : string;
  line_quantity : Z
}.

(** One element of the array [getCart] answers with. *)
Record CartItem : Type := mkCartItem {
  ci_item_id : Z;
  ci_cart_id : string;
  ci_name : string;
  ci_attributes : string;
  ci_product_id : Z;
  ci_image : string;
  ci_price : Z;
  ci_discounted_price : Z;
  ci_quantity : Z;
  ci_subtotal : Z
}.

(** ** Tables *)

Module Product.

Record row : Type := mk {
  product_id : Z;
  name : string;
  description : string;
  price : Z;
  discounted_price : Z;
  image : string;
  image_2 : string;
  thumbnail : string;
  display : Z
}.

(** [Product.findByPk(id)] and [Product.findOne({where: {product_id}})]. *)
Definition findByPk (id : Z) (t : list row) : option row :=
  find (fun r => product_id r =? id) t.

End Product.

Module ShoppingCart.

Record row : Type := mk {
  item_id : Z;
  cart_id : string;
  product_id : Z;
  attributes : string;
  quantity : Z;
  added_on : option Z
}.

(** The rows and the auto-increment counter of [item_id]. *)
Record table : Type := mkTable {
  rows : list row;
  next_id : Z
}.

Definition project (r : row) : CartLine :=
  mkCartLine (item_id r) (cart_id r) (product_id r) (attributes r) (quantity r).

Definition same_key (c : string) (p : Z) (r : row) : bool :=
  String.eqb (cart_id r) c && (product_id r =? p).

(** The update half of an upsert: the first row with the key
    [(cart_id, product_id)] takes the supplied values. *)
Fixpoint update_first (c : string) (p : Z) (a : string) (q : Z)
    (l : list row) : option (list row) :=
  match l with
  | [] => None
  | r :: l' =>
      if same_key c p r
      then Some (mk (item_id r) c p a q (added_on r) :: l')
      else option_map (cons r) (update_first c p a q l')
  end.

(** [ShoppingCart.upsert({cart_id, product_id, attributes, quantity})].
    No [item_id] is supplied, so the primary key never matches; a row is
    updated only when the table declares a unique key on
    [(cart_id, product_id)] ([unique]) and holds a row with that key.
    Otherwise a row is inserted under a fresh [item_id], its [added_on]
    being what the column default gives at this call ([stamp]).  The
    result is the table and whether a row was created. *)
Definition upsert (unique : bool) (stamp : option Z)
    (c : string) (p : Z) (a : string) (q : Z) (t : table) : table * bool :=
  match (if unique then update_first c p a q (rows t) else None) with
  | Some l => (mkTable l (next_id t), false)
  | None =>
      (mkTable (rows t ++ [mk (next_id t) c p a q stamp]) (next_id t + 1),
       true)
  end.

(** Order of [added_on] values, [NULL] below every date. *)
Definition added_on_leb (a b : option Z) : bool :=
  match a, b with
  | None, _ => true
  | Some _, None => false
  | Some x, Some y => x <=? y
  end.

(** The first row of a list in descending [added_on] order. *)
Fixpoint latest (l : list row) : option row :=
  match l with
  | [] => None
  | r :: l' =>
      match latest l' with
      | None => Some r
      | Some m => if added_on_leb (added_on m) (added_on r) then Some r else Some m
      end
  end.

(** [ShoppingCart.findOne({where: {product_id}, order: [['added_on', 'DESC']]})]. *)
Definition findOne_latest (p : Z) (t : table) : option row :=
  latest (filter (fun r => product_id r =? p) (rows t)).

(** The rows of the cart [c] that hold the product [p]. *)
Definition lines (c : string) (p : Z) (t : table) : list row :=
  filter (same_key c p) (rows t).

(** [ShoppingCart.findAll({where: {cart_id}})]. *)
Definition findAll (c : string) (t : table) : list row :=
  filter (fun r => String.eqb (cart_id r) c) (rows t).

(** [ShoppingCart.destroy({where})]: the table without the rows that
    match, and how many rows matched. *)
Definition destroy (where_ : row -> bool) (t : table) : table * Z :=
  (mkTable (filter (fun r => negb (where_ r)) (rows t)) (next_id t),
   Z.of_nat (List.length (filter where_ (rows t)))).

(** What an update of the quantity where [item_id] is [id] does to a row. *)
Definition set_quantity (id q : Z) (r : row) : row :=
  if item_id r =? id
  then mk (item_id r) (cart_id r) (product_id r) (attributes r) q (added_on r)
  else r.

(** [ShoppingCart.update({quantity}, {where: {item_id}})]. *)
Definition update_quantity (id q : Z) (t : table) : table :=
  mkTable (map (set_quantity id q) (rows t)) (next_id t).

(** [ShoppingCart.findByPk(item_id)]. *)
Definition findByPk (id : Z) (t : table) : option row :=
  find (fun r => item_id r =? id) (rows t).

End ShoppingCart.

Module Order.

Record row : Type := mk {
  order_id : Z;
  customer_id : option Z;
  cart_id : string;
  shipping_id : Z;
  tax_id : Z;
  total_amount : Z
}.

Record table : Type := mkTable {
  rows : list row;
  next_id : Z
}.

(** [Order.upsert({customer_id, cart_id, shipping_id, tax_id})]: no
    [order_id] is supplied, a row is inserted under a fresh one with
    [total_amount] at its column default. *)
Definition upsert (total_default : Z) (cu : option Z) (c : string)
    (sh tx : Z) (t : table) : table * bool :=
  (mkTable (rows t ++ [mk (next_id t) cu c sh tx total_default]) (next_id t + 1),
   true).

(** [Order.count()]. *)
Definition count (t : table) : Z := Z.of_nat (List.length (rows t)).

End Order.

Module OrderDetail.

Record row : Type := mk {
  item_id : Z;
  order_id : Z;
  product_id : Z;
  attributes : string;
  product_name : string;
  quantity : Z;
  unit_cost : Z
}.

(** [OrderDetail.findByPk(id)], [pk] being the primary key column. *)
Definition findByPk (pk : row -> Z) (id : Z) (t : list row) : option row :=
  find (fun r => pk r =? id) t.

End OrderDetail.

(** The hashing capability ([bcrypt]): the digest computed for a password
    and the check of a password against a digest. *)
Record Bcrypt : Type := mkBcrypt {
  hashSync : string -> string;
  compareSync : string -> string -> bool
}.

Module Customer.

Record row : Type := mk {
  customer_id : Z;
  name : string;
  email : string;
  password : string;
  address_1 : option string;
  address_2 : option string;
  city : option string;
  region : option string;
  postal_code : option string;
  shipping_region_id : option Z;
  credit_card : option string;
  day_phone : option string;
  eve_phone : option string;
  mob_phone : option string
}.

Record table : Type := mkTable {
  rows : list row;
  next_id : Z
}.

(** [Customer.findOne({where: {email}})]. *)
Definition findOne (e : string) (t : table) : option row :=
  find (fun r => String.eqb (email r) e) (rows t).

(** Modelled from the spec: the create hook of the Customer model, which
    is declared in src/database/models and not in the controllers.  The
    controller hands the model the password it received; the spec has
    register store "a salted/hashed credential (hashing is an external
    capability)", so the model replaces the password by its digest before
    the row is written. *)
Definition beforeCreate (bcrypt : Bcrypt) (pw : string) : string :=
  hashSync bcrypt pw.

(** [Customer.findOrCreate({where: {email}, defaults: {name, password}})]:
    the row found, or the row created from the defaults with the other
    columns as in [blank]; and whether it was created. *)
Definition findOrCreate (bcrypt : Bcrypt) (blank : row)
    (e n pw : string) (t : table) : table * (row * bool) :=
  match findOne e t with
  | Some r => (t, (r, false))
  | None =>
      let r := mk (next_id t) n e (beforeCreate bcrypt pw)
                  (address_1 blank) (address_2 blank) (city blank)
                  (region blank) (postal_code blank)
                  (shipping_region_id blank) (credit_card blank)
                  (day_phone blank) (eve_phone blank) (mob_phone blank) in
      (mkTable (rows t ++ [r]) (next_id t + 1), (r, true))
  end.

(** [Customer.findOne({where: {customer_id}})]. *)
Definition findByPk (id : Z) (t : table) : option row :=
  find (fun r => customer_id r =? id) (rows t).

(** [Customer.findOne({where: {email, customer_id: {[Op.not]: id}}})]. *)
Definition findOne_other (e : string) (id : Z) (t : table) : option row :=
  find (fun r => String.eqb (email r) e && negb (customer_id r =? id)) (rows t).

(** [Customer.update(values, {where: {customer_id}})], [f] writing the
    values into a row. *)
Definition update (id : Z) (f : row -> row) (t : table) : table :=
  mkTable (map (fun r => if customer_id r =? id then f r else r) (rows t))
    (next_id t).

(** The values [{email, name, day_phone, eve_phone, mob_phone}]; a phone
    that is present is a text or [null]. *)
Definition set_profile (e : string) (n : Js.field string)
    (d ev m : Js.field (option string)) (r : row) : row :=
  mk (customer_id r) (Js.assigned n (name r)) e (password r) (address_1 r)
    (address_2 r) (city r) (region r) (postal_code r) (shipping_region_id r)
    (credit_card r) (Js.assigned d (day_phone r)) (Js.assigned ev (eve_phone r))
    (Js.assigned m (mob_phone r)).

(** The values [{credit_card}]; a card that is present is a text or
    [null]. *)
Definition set_credit_card (cc : Js.field (option string)) (r : row) : row :=
  mk (customer_id r) (name r) (email r) (password r) (address_1 r)
    (address_2 r) (city r) (region r) (postal_code r) (shipping_region_id r)
    (Js.assigned cc (credit_card r)) (day_phone r) (eve_phone r) (mob_phone r).

End Customer.

Module Review.

Record row : Type := mk {
  review_id : Z;
  customer_id : Z;
  product_id : Z;
  review : string;
  rating : Z;
  created_on : Z
}.

Record table : Type := mkTable {
  rows : list row;
  next_id : Z
}.

(** [Review.findOne({where: {product_id, customer_id}})]. *)
Definition findOne (p c : Z) (t : table) : option row :=
  find (fun r => (product_id r =? p) && (customer_id r =? c)) (rows t).

(** [Review.upsert({customer_id, review, rating, created_on, product_id})]:
    no [review_id] is supplied, a row is inserted under a fresh one. *)
Definition upsert (c : Z) (rv : string) (rt now p : Z) (t : table)
    : table * bool :=
  (mkTable (rows t ++ [mk (next_id t) c p rv rt now]) (next_id t + 1), true).

(** [Review.findAll({where: {product_id}})]. *)
Definition findAll (p : Z) (t : table) : list row :=
  filter (fun r => product_id r =? p) (rows t).

End Review.

Module Category.

Record row : Type := mk {
  category_id : Z;
  department_id : Z;
  name : string;
  description : string
}.

End Category.

Module ProductCategory.

Record row : Type := mk {
  product_id : Z;
  category_id : Z
}.

End ProductCategory.

(** ** The database and what the model declarations fix *)

Record DB : Type := mkDB {
  shopping_cart : ShoppingCart.table;
  product : list Product.row;
  orders : Order.table;
  order_detail : list OrderDetail.row;
  customer : Customer.table;
  reviews : Review.table;
  category : list Category.row;
  product_category : list ProductCategory.row
}.

Definition with_shopping_cart (t : ShoppingCart.table) (db : DB) : DB :=
  mkDB t (product db) (orders db) (order_detail db) (customer db) (reviews db)
       (category db) (product_category db).

Definition with_product (t : list Product.row) (db : DB) : DB :=
  mkDB (shopping_cart db) t (orders db) (order_detail db) (customer db)
       (reviews db) (category db) (product_category db).

Definition with_orders (t : Order.table) (db : DB) : DB :=
  mkDB (shopping_cart db) (product db) t (order_detail db) (customer db)
       (reviews db) (category db) (product_category db).

Definition with_customer (t : Customer.table) (db : DB) : DB :=
  mkDB (shopping_cart db) (product db) (orders db) (order_detail db) t
       (reviews db) (category db) (product_category db).

Definition with_reviews (t : Review.table) (db : DB) : DB :=
  mkDB (shopping_cart db) (product db) (orders db) (order_detail db)
       (customer db) t (category db) (product_category db).

(** The declarations of the models the handlers depend on. *)
Record Schema : Type := mkSchema {
  (** does [shopping_cart] declare a unique key on [(cart_id, product_id)]? *)
  cart_unique : bool;
  (** the column default of [orders.total_amount] *)
  order_total_default : Z;
  (** the primary key column of [order_detail] *)
  order_detail_pk : OrderDetail.row -> Z;
  (** a customer row holding the column defaults of the profile columns *)
  customer_blank : Customer.row
}.

(** ** Responses *)

(** [`Bearer ${jwt.sign({ customer_id }, SECRET_KEY, { expiresIn })}`]. *)
Record AccessToken : Type := mkToken {
  token_customer_id : Z;
  token_expiresIn : string
}.

(** The [customer] object of the register and login responses. *)
Record Profile : Type := mkProfile {
  pf_customer_id : Z;
  pf_name : string;
  pf_email : string;
  pf_address_1 : option string;
  pf_address_2 : option string;
  pf_city : option string;
  pf_region : option string;
  pf_postal_code : option string;
  pf_shipping_region_id : option Z;
  pf_credit_card : option string;
  pf_day_phone : option string;
  pf_eve_phone : option string;
  pf_mob_phone : option string
}.

(** The product fields a list query answers with. *)
Record ProductView : Type := mkView {
  pv_product_id : Z;
  pv_name : string;
  pv_description : string;
  pv_price : Z;
  pv_discounted_price : Z;
  pv_thumbnail : string
}.

Record PaginationMeta : Type := mkMeta {
  currentPage : Z;
  currentPageSize : Z;
  (** [Math.ceil(count / limit)]; [None] when the quotient is not finite *)
  totalPages : option Z;
  totalRecords : Z
}.

Inductive Body : Type :=
| Text (s : string)                      (* res.json('...') *)
| Message (m : string)                   (* { message } *)
| Error (status : Z) (message : string)  (* { error: { status, message } } *)
| Line (l : option CartLine)
| Items (l : list CartItem)
| OrderId (order_id : Z)
| OrderSummary (order_id : Z) (order_items : OrderDetail.row)
| Account (c : Profile) (accessToken : AccessToken) (expiresIn : string)
| Created (b : bool)
| Page (meta : PaginationMeta) (rows : list ProductView)
| Rows (rows : list ProductView)
| RowsOpt (rows : list (option ProductView))
| RowsNested (rows : list (list (option ProductView))).

(** What a handler does with the request: it responds, or it passes an
    error to [next]. *)
Inductive Outcome : Type :=
| Respond (status : Z) (body : Body)
| Next.

(** What the further handlers do with a request: they answer with a
    payload of their own, or as an [Outcome] says. *)
Inductive Reply (A : Type) : Type :=
| Sent (status : Z) (payload : A)
| Other (o : Outcome).

Arguments Sent {A} status payload.
Arguments Other {A} o.

(** A customer row without its password, [attributes: { exclude:
    ['password'] }]. *)
Definition profile_of (c : Customer.row) : Profile :=
  mkProfile (Customer.customer_id c) (Customer.name c) (Customer.email c)
    (Customer.address_1 c) (Customer.address_2 c) (Customer.city c)
    (Customer.region c) (Customer.postal_code c)
    (Customer.shipping_region_id c) (Customer.credit_card c)
    (Customer.day_phone c) (Customer.eve_phone c) (Customer.mob_phone c).

(** The object [getProduct] answers with. *)
Record ProductDetail : Type := mkDetail {
  pd_product_id : Z;
  pd_name : string;
  pd_description : string;
  pd_price : Z;
  pd_discounted_price : Z;
  pd_image : string;
  pd_image_2 : string;
  pd_thumbnail : string;
  pd_display : Z
}.

(** The projection [attributes: ['category_id', 'department_id', 'name']]
    of a category. *)
Record CategoryView : Type := mkCategoryView {
  cv_category_id : Z;
  cv_department_id : Z;
  cv_name : string
}.

(** ** shoppingCart.controller.js *)

Module ShoppingCartController.

(** [addItemToCart]: [customerId] is [decodedToken.customer_id], the
    other arguments are the fields of [req.body]. *)
Definition addItemToCart (sc : Schema) (stamp : option Z)
    (customerId : option Z) (cart_id : string) (product_id : Z)
    (attributes : string) (quantity : Z) (db : DB) : DB * Outcome :=
  let '(db1, shopping) :=
    if Js.truthy customerId
    then
      let '(t, created) :=
        ShoppingCart.upsert (cart_unique sc) stamp
          (Js.substring 10 cart_id) product_id attributes quantity
          (shopping_cart db) in
      (with_shopping_cart t db, created)
    else (db, false) in
  if shopping
  then
    let lastEntry := ShoppingCart.findOne_latest product_id (shopping_cart db1) in
    (db1, Respond 201 (Line (option_map ShoppingCart.project lastEntry)))
  else (db1, Respond 400 (Text "Could not add item to cart.")).

(** The [cart.map(item => ...)] of [getCart]; [None] when a row has no
    product to destructure. *)
Fixpoint items (cart_id : string) (products : list Product.row)
    (cart : list ShoppingCart.row) : option (list CartItem) :=
  match cart with
  | [] => Some []
  | item :: rest =>
      match Product.findByPk (ShoppingCart.product_id item) products with
      | None => None
      | Some p =>
          match items cart_id products rest with
          | None => None
          | Some l =>
              Some (mkCartItem (ShoppingCart.item_id item) cart_id
                      (Product.name p) (ShoppingCart.attributes item)
                      (ShoppingCart.product_id item) (Product.image p)
                      (Product.price p) (Product.discounted_price p)
                      (ShoppingCart.quantity item)
                      (ShoppingCart.quantity item * Product.price p) :: l)
          end
      end
  end.

Definition getCart (customerId : option Z) (cart_id : string) (db : DB)
    : Outcome :=
  if Js.truthy customerId
  then
    match items cart_id (product db)
            (ShoppingCart.findAll cart_id (shopping_cart db)) with
    | Some l => Respond 200 (Items l)
    | None => Next
    end
  else Respond 404 (Text "Could not find a cart with that id.").

Definition emptyCart (customerId : option Z) (cart_id : string) (db : DB)
    : DB * Outcome :=
  let '(db1, emptyCart) :=
    if Js.truthy customerId
    then
      let '(t, n) :=
        ShoppingCart.destroy
          (fun r => String.eqb (ShoppingCart.cart_id r) cart_id)
          (shopping_cart db) in
      (with_shopping_cart t db, n)
    else (db, 0) in
  if negb (emptyCart =? 0)
  then (db1, Respond 200 (Items []))
  else (db1, Respond 400 (Text "Unable to empty cart")).

Definition removeItemFromCart (customerId : option Z) (item_id : Z)
    (db : DB) : DB * Outcome :=
  let '(db1, removedItem) :=
    if Js.truthy customerId
    then
      let '(t, n) :=
        ShoppingCart.destroy (fun r => ShoppingCart.item_id r =? item_id)
          (shopping_cart db) in
      (with_shopping_cart t db, n)
    else (db, 0) in
  if negb (removedItem =? 0)
  then (db1, Respond 200 (Message "successfully removed the item"))
  else (db1, Respond 400 (Text "Unable to remove the item")).

Definition createOrder (sc : Schema) (customerId : option Z)
    (cart_id : string) (shipping_id tax_id : Z) (db : DB) : DB * Outcome :=
  let '(t, order) :=
    Order.upsert (order_total_default sc) customerId cart_id shipping_id
      tax_id (orders db) in
  let db1 := with_orders t db in
  if order
  then (db1, Respond 201 (OrderId (Order.count (orders db1))))
  else (db1, Respond 400 (Text "Could not create the order.")).

Definition getOrderSummary (sc : Schema) (order_id : Z) (db : DB) : Outcome :=
  match OrderDetail.findByPk (order_detail_pk sc) order_id (order_detail db) with
  | Some order => Respond 200 (OrderSummary order_id order)
  | None => Respond 404 (Text "The order does not exist")
  end.

(** [updateCartItem]: [item_id] is read from [req.params], [quantity] from
    [req.body]. *)
Definition updateCartItem (customerId : option Z) (item_id quantity : Z)
    (db : DB) : DB * Reply (option ShoppingCart.row) :=
  let db1 :=
    if Js.truthy customerId
    then
      with_shopping_cart
        (ShoppingCart.update_quantity item_id quantity (shopping_cart db)) db
    else db in
  let updatedItem := ShoppingCart.findByPk item_id (shopping_cart db1) in
  (db1, Sent 200 updatedItem).

End ShoppingCartController.

(** ** customer.controller.js *)

Module CustomerController.

(** [create]: the arguments are the fields of [req.body]. *)
Definition create (sc : Schema) (bcrypt : Bcrypt)
    (name email password : string) (db : DB) : DB * Outcome :=
  let passwordHash := hashSync bcrypt password in
  let '(t, (c, created)) :=
    Customer.findOrCreate bcrypt (customer_blank sc) email name password
      (customer db) in
  let db1 := with_customer t db in
  if negb created
  then
    (db1,
     Respond 409
       (Error 409 ("User with email " ++ email ++ " already exist")%string))
  else
    let customer_id := Customer.customer_id c in
    (db1,
     Respond 201
       (Account
          (mkProfile customer_id name email
             (Js.or_null (Customer.address_1 c))
             (Js.or_null (Customer.address_2 c))
             (Js.or_null (Customer.city c))
             (Js.or_null (Customer.region c))
             (Js.or_null (Customer.postal_code c))
             (if Js.truthy (Customer.shipping_region_id c)
              then Customer.shipping_region_id c else None)
             (Js.or_null (Customer.credit_card c))
             (Js.or_null (Customer.day_phone c))
             (Js.or_null (Customer.eve_phone c))
             (Js.or_null (Customer.mob_phone c)))
          (mkToken customer_id "24h") "24h")).

Definition login (bcrypt : Bcrypt) (email password : string) (db : DB)
    : Outcome :=
  match Customer.findOne email (customer db) with
  | Some c =>
      if negb (compareSync bcrypt password (Customer.password c))
      then Respond 401 (Message "Incorrect password")
      else
        Respond 200
          (Account
             (mkProfile (Customer.customer_id c) (Customer.name c)
                (Customer.email c) (Customer.address_1 c)
                (Customer.address_2 c) (Customer.city c)
                (Customer.region c) (Customer.postal_code c)
                (Customer.shipping_region_id c) (Customer.credit_card c)
                (Customer.day_phone c) (Customer.eve_phone c)
                (Customer.mob_phone c))
             (mkToken (Customer.customer_id c) "24h") "24h")
  | None => Respond 404 (Error 404 "User does not exist")
  end.

(** [getCustomerProfile], for a token that carries the customer id
    [customerId]. *)
Definition getCustomerProfile (customerId : Z) (db : DB) : Reply Profile :=
  match Customer.findByPk customerId (customer db) with
  | Some c => Sent 200 (profile_of c)
  | None => Other (Respond 404 (Text "The user does not exist"))
  end.

(** [updateCustomerProfile], for a token that carries the customer id
    [customerId] and a body that holds an email; the other arguments are
    the further fields of [req.body]. *)
Definition updateCustomerProfile (customerId : Z) (email : string)
    (name : Js.field string)
    (day_phone eve_phone mob_phone : Js.field (option string)) (db : DB)
    : DB * Reply (option Profile) :=
  match Customer.findOne_other email customerId (customer db) with
  | None =>
      let db1 :=
        with_customer
          (Customer.update customerId
             (Customer.set_profile email name day_phone eve_phone mob_phone)
             (customer db))
          db in
      (db1,
       Sent 200
         (option_map profile_of (Customer.findByPk customerId (customer db1))))
  | Some _ => (db, Other (Respond 403 (Message "Email already taken")))
  end.

(** [updateCreditCard], for a token that carries the customer id
    [customerId]. *)
Definition updateCreditCard (customerId : Z)
    (credit_card : Js.field (option string)) (db : DB) : DB * Reply (option Profile) :=
  let db1 :=
    with_customer
      (Customer.update customerId (Customer.set_credit_card credit_card)
         (customer db))
      db in
  (db1,
   Sent 200
     (option_map profile_of (Customer.findByPk customerId (customer db1)))).

End CustomerController.

(** ** The query language the product handlers use *)

Module Sql.

(** [s LIKE pattern] under the collation of the column: two characters
    are the same when [fold] maps them to the same character (the identity
    for a binary collation, lower-casing for a case-insensitive one).  [%]
    stands for any run of characters and [_] for any one character. *)
Fixpoint like (fold : ascii -> ascii) (pattern : string) : string -> bool :=
  match pattern with
  | EmptyString =>
      fun s => match s with EmptyString => true | String _ _ => false end
  | String c p =>
      if (c =? "%")%char
      then
        fix any (s : string) : bool :=
          like fold p s
          || match s with EmptyString => false | String _ s' => any s' end
      else if (c =? "_")%char
      then
        fun s =>
          match s with EmptyString => false | String _ s' => like fold p s' end
      else
        fun s =>
          match s with
          | EmptyString => false
          | String d s' => (fold c =? fold d)%char && like fold p s'
          end
  end.

(** [{ [Op.or]: conds }] on a column: the query builder drops an empty
    array, which then puts no condition on the column. *)
Definition Op_or (conds : list (string -> bool)) (v : string) : bool :=
  match conds with
  | [] => true
  | _ => existsb (fun c => c v) conds
  end.

(** [LIMIT offset, limit] over the rows a query selects; the statement
    is refused unless both are numbers that are not negative. *)
Definition slice {A : Type} (offset limit : Js.num) (l : list A)
    : option (list A) :=
  match offset, limit with
  | Js.Num o, Js.Num n =>
      if (0 <=? o) && (0 <=? n)
      then Some (firstn (Z.to_nat n) (skipn (Z.to_nat o) l))
      else None
  | _, _ => None
  end.

End Sql.

(** ** product.controller.js *)

Module ProductController.

(** A numeric query parameter ([page], [limit], [description_length]):
    absent, or the decimal text of an integer.  A text that is present is
    truthy, ["0"] included. *)
Definition param : Type := option Z.

(** [!p] *)
Definition absent (p : param) : bool :=
  match p with None => true | Some _ => false end.

(** [Number(p)] *)
Definition Number (p : param) : Js.num :=
  match p with None => Js.NaN | Some z => Js.Num z end.

(** [if (!page) page = 1; else if (page < 1) page = 1;] *)
Definition default_page (page : param) : param :=
  if absent page then Some 1
  else if match page with Some z => z <? 1 | None => false end then Some 1
  else page.

(** [if (!limit) limit = 20;] *)
Definition default_limit (limit : param) : param :=
  if absent limit then Some 20 else limit.

(** [if (!description_length) description_length = 200;] *)
Definition default_description_length (d : param) : param :=
  if absent d then Some 200 else d.

(** [Number(page) * Number(limit) - Number(limit)] *)
Definition offset_of (page limit : param) : Js.num :=
  Js.sub (Js.mul (Number page) (Number limit)) (Number limit).

(** [description.substring(0, description_length)] *)
Definition truncate (description_length : param) (description : string)
    : string :=
  match description_length with
  | Some n => Js.substring0 (Z.to_nat n) description
  | None => description
  end.

Definition view (description_length : param) (p : Product.row) : ProductView :=
  mkView (Product.product_id p) (Product.name p)
    (truncate description_length (Product.description p))
    (Product.price p) (Product.discounted_price p) (Product.thumbnail p).

(** [Math.ceil(count / limit)] for a count and a limit that are not
    negative. *)
Definition ceil_div (count limit : Z) : option Z :=
  if limit =? 0 then None else Some ((count + limit - 1) / limit).

(** The [{offset, limit}] that [getAllProducts] and [searchProduct] query
    with. *)
Definition query_map (page limit : param) : Js.num * Js.num :=
  let page := default_page page in
  let limit := default_limit limit in
  (offset_of page limit, Number limit).

(** The [{offset, limit}] that [getProductsByCategory] and
    [getProductsByDepartment] query with: there the offset is computed
    from the parameters as received, the defaults are applied after. *)
Definition query_map_late (page limit : param) : Js.num * Js.num :=
  let offset := offset_of page limit in
  let page := default_page page in
  let limit := default_limit limit in
  (offset, Number limit).

Definition getAllProducts (page limit description_length : param)
    (db : DB) : Outcome :=
  let description_length := default_description_length description_length in
  let '(offset, limit) := query_map page limit in
  match Sql.slice offset limit (product db), offset, limit with
  | Some rows, Js.Num o, Js.Num n =>
      let count := Z.of_nat (List.length (product db)) in
      Respond 200
        (Page (mkMeta o n (ceil_div count n) count)
           (map (view description_length) rows))
  | _, _, _ => Next
  end.

(** The separators of [/[ ,]+/]. *)
Definition is_sep (c : ascii) : bool :=
  ((c =? " ") || (c =? ","))%char.

(** [s.split(/[ ,]+/)]: [cur] is the piece being read, [in_sep] whether
    the last character was a separator. *)
Fixpoint split_from (s : string) (cur : string) (in_sep : bool)
    : list string :=
  match s with
  | EmptyString => [cur]
  | String c s' =>
      if is_sep c
      then
        if in_sep then split_from s' EmptyString true
        else cur :: split_from s' EmptyString true
      else split_from s' (cur ++ String c EmptyString)%string false
  end.

Definition split (s : string) : list string := split_from s EmptyString false.

(** [Boolean(w)] for a string. *)
Definition nonempty (w : string) : bool :=
  match w with EmptyString => false | String _ _ => true end.

(** [query_string.split(/[ ,]+/).filter(Boolean)] *)
Definition wordQueries (query_string : string) : list string :=
  filter nonempty (split query_string).

(** The condition on [name] that [searchProduct] queries with. *)
Definition search_where (fold : ascii -> ascii) (all_words : option string)
    (query_string : string) : string -> bool :=
  if match all_words with Some w => String.eqb w "off" | None => false end
  then
    let queryArray :=
      map (fun w => Sql.like fold ("%" ++ w ++ "%")%string)
        (wordQueries query_string) in
    Sql.Op_or queryArray
  else Sql.like fold ("%" ++ query_string ++ "%")%string.

(** [searchProduct]; [fold] is the collation of the column [name]. *)
Definition searchProduct (fold : ascii -> ascii)
    (page limit description_length : param) (all_words : option string)
    (query_string : string) (db : DB) : Outcome :=
  let description_length := default_description_length description_length in
  let '(offset, limit) := query_map page limit in
  let where_ := search_where fold all_words query_string in
  match
    Sql.slice offset limit
      (filter (fun p => where_ (Product.name p)) (product db))
  with
  | Some products => Respond 200 (Rows (map (view description_length) products))
  | None => Next
  end.

(** The [product] columns joined to a [product_category] row; [None]
    when there is no such product. *)
Definition joined (db : DB) (pc : ProductCategory.row) : option ProductView :=
  option_map (view None)
    (Product.findByPk (ProductCategory.product_id pc) (product db)).

Definition in_category (category_id : Z) (db : DB)
    : list (option ProductView) :=
  map (joined db)
    (filter (fun pc => ProductCategory.category_id pc =? category_id)
       (product_category db)).

Definition getProductsByCategory (category_id : Z) (page limit : param)
    (db : DB) : Outcome :=
  let '(offset, limit) := query_map_late page limit in
  match Sql.slice offset limit (in_category category_id db) with
  | Some products => Respond 200 (RowsOpt products)
  | None => Next
  end.

Definition getProductsByDepartment (department_id : Z)
    (page limit : param) (db : DB) : Outcome :=
  let '(offset, limit) := query_map_late page limit in
  match
    Sql.slice offset limit
      (filter (fun c => Category.department_id c =? department_id)
         (category db))
  with
  | Some categoryIDs =>
      let categoriesIDArray := map Category.category_id categoryIDs in
      Respond 200
        (RowsNested (map (fun id => in_category id db) categoriesIDArray))
  | None => Next
  end.

(** [postProductReview]: [product_id], [review] and [rating] are read
    from [req.params]; [now] is [Date.now()].  The caller's token is not
    read: the customer is the constant [1]. *)
Definition postProductReview (now : Z) (product_id : Z) (review : string)
    (rating : Z) (db : DB) : DB * Outcome :=
  match Product.findByPk product_id (product db) with
  | Some _ =>
      match Review.findOne product_id 1 (reviews db) with
      | None =>
          let '(t, productReview) :=
            Review.upsert 1 review rating now product_id (reviews db) in
          (with_reviews t db, Respond 201 (Created productReview))
      | Some _ =>
          (db, Respond 409 (Text "You have already reviewed this product."))
      end
  | None =>
      (db,
       Respond 404
         (Error 404
            ("Product with id " ++ Js.string_of_Z product_id
             ++ " does not exist")%string))
  end.

(** [getProduct]: without a [description_length] the description is
    answered whole. *)
Definition getProduct (description_length : param) (product_id : Z) (db : DB)
    : Reply ProductDetail :=
  match Product.findByPk product_id (product db) with
  | Some p =>
      Sent 200
        (mkDetail product_id (Product.name p)
           (truncate description_length (Product.description p))
           (Product.price p) (Product.discounted_price p) (Product.image p)
           (Product.image_2 p) (Product.thumbnail p) (Product.display p))
  | None =>
      Other
        (Respond 404
           (Error 404
              ("Product with id " ++ Js.string_of_Z product_id
               ++ " does not exist")%string))
  end.

(** The [customer.name] joined to a review; [None] when there is no such
    customer. *)
Definition reviewer (db : DB) (r : Review.row) : option string :=
  option_map Customer.name
    (Customer.findByPk (Review.customer_id r) (customer db)).

(** [getProductReviews]: the array [findAll] gives is truthy also when it
    is empty, so the answer is always the 200 one. *)
Definition getProductReviews (product_id : Z) (db : DB)
    : Reply (list (option string)) :=
  let reviews := map (reviewer db) (Review.findAll product_id (reviews db)) in
  Sent 200 reviews.

(** [getProductCategory]: [category.dataValues] throws when the product has
    no category row. *)
Definition getProductCategory (product_id : Z) (db : DB)
    : Reply (option CategoryView) :=
  match
    find (fun pc => ProductCategory.product_id pc =? product_id)
      (product_category db)
  with
  | Some pc =>
      Sent 200
        (option_map
           (fun c =>
              mkCategoryView (Category.category_id c)
                (Category.department_id c) (Category.name c))
           (find
              (fun c =>
                 Category.category_id c =? ProductCategory.category_id pc)
              (category db)))
  | None => Other Next
  end.

End ProductController.

(** ** Sample data *)

Module Sample.

Definition blank : Customer.row :=
  Customer.mk 0 EmptyString EmptyString EmptyString None None None None None (Some 1) None None None None.

(** [shopping_cart] keyed by its auto-increment [item_id] alone. *)
Definition plain : Schema := mkSchema false 0 OrderDetail.item_id blank.

(** [shopping_cart] with a unique key on [(cart_id, product_id)]. *)
Definition keyed : Schema := mkSchema true 0 OrderDetail.item_id blank.

Definition empty : DB :=
  mkDB (ShoppingCart.mkTable [] 1) [] (Order.mkTable [] 1) []
       (Customer.mkTable [] 1) (Review.mkTable [] 1) [] [].

Definition shirt : Product.row :=
  Product.mk 1 "blue shirt" "A blue shirt" 10 0 "shirt.gif" "shirt-2.gif"
    "shirt-thumbnail.gif" 0.

Definition cap : Product.row :=
  Product.mk 2 "red cap" "A red cap" 5 0 "cap.gif" "cap-2.gif"
    "cap-thumbnail.gif" 0.

Definition catalog : DB := with_product [shirt; cap] empty.

(** The cart "abc123": two shirts at 10 and one cap at 5. *)
Definition checkout : DB :=
  with_shopping_cart
    (ShoppingCart.mkTable
       [ShoppingCart.mk 1 "abc123" 1 "L" 2 None;
        ShoppingCart.mk 2 "abc123" 2 "Red" 1 None] 3)
    catalog.

(** The catalog with its shelves: shirts and caps, both of department 1. *)
Definition shelves : DB :=
  mkDB (shopping_cart catalog) (product catalog) (orders catalog)
    (order_detail catalog) (customer catalog) (reviews catalog)
    [Category.mk 1 1 "Shirts" "All shirts"; Category.mk 2 1 "Caps" "All caps"]
    [ProductCategory.mk 1 1; ProductCategory.mk 2 2].

(** Product 1 already lies in the cart "zzz", added at time 50. *)
Definition other_cart : DB :=
  with_shopping_cart
    (ShoppingCart.mkTable [ShoppingCart.mk 1 "zzz" 1 "M" 4 (Some 50)] 2)
    catalog.

(** One customer with phone numbers on record. *)
Definition reachable : DB :=
  with_customer
    (Customer.mkTable
       [Customer.mk 1 "Ann" "ann@shop.io" "$2b$08$secret" None None None
          None None (Some 1) (Some "4111111111111111") (Some "555") None
          (Some "777")] 2)
    catalog.

(** A binary collation. *)
Definition binary (ch : ascii) : ascii := ch.

(** A collation that ignores the case of the letters A-Z. *)
Definition lower (ch : ascii) : ascii :=
  let n := nat_of_ascii ch in
  if (Nat.leb 65 n && Nat.leb n 90)%bool then ascii_of_nat (n + 32) else ch.

(** A stand-in for the hashing capability. *)
Definition bcrypt : Bcrypt :=
  mkBcrypt (fun pw => ("$2b$08$" ++ pw)%string)
    (fun pw digest => String.eqb ("$2b$08$" ++ pw)%string digest).

(** One registered customer, ann@shop.io with the password "secret". *)
Definition members : DB :=
  with_customer
    (Customer.mkTable
       [Customer.mk 1 "Ann" "ann@shop.io" "$2b$08$secret" None None None
          None None (Some 1) None None None None] 2)
    catalog.

End Sample.

(** ** Vocabulary of the properties *)

(** The store after two [addItemToCart] calls that differ in the quantity
    only. *)
Definition add_twice (sc : Schema) (stamp1 stamp2 : option Z)
    (customerId : option Z) (cart_id : string) (product_id : Z)
    (attributes : string) (q1 q2 : Z) (db : DB) : DB :=
  fst (ShoppingCartController.addItemToCart sc stamp2 customerId cart_id
         product_id attributes q2
         (fst (ShoppingCartController.addItemToCart sc stamp1 customerId
                 cart_id product_id attributes q1 db))).

(** The cart [c] holds exactly one line for the product [p], of quantity
    [q]. *)
Definition one_line (c : string) (p q : Z) (db : DB) : Prop :=
  exists r,
    ShoppingCart.lines c p (shopping_cart db) = [r]
    /\ ShoppingCart.quantity r = q.

(** The sum of the subtotals of the lines [getCart] shows for a cart. *)
Definition cart_subtotal (cart_id : string) (db : DB) : Z :=
  match
    ShoppingCartController.items cart_id (product db)
      (ShoppingCart.findAll cart_id (shopping_cart db))
  with
  | Some l => fold_right Z.add 0 (map ci_subtotal l)
  | None => 0
  end.

(** A checkout of the cart [cart_id] took the store from [db] to [db1] and
    answered [out]: one order was added, its total is the cart's subtotal
    plus tax and shipping, every cart line has its order-detail row, the
    cart shows empty, and the answer carries the id of the order. *)
Definition checked_out (customerId : option Z) (cart_id : string)
    (tax shipping : Z) (db db1 : DB) (out : Outcome) : Prop :=
  exists o,
    Order.rows (orders db1) = Order.rows (orders db) ++ [o]
    /\ out = Respond 201 (OrderId (Order.order_id o))
    /\ Order.total_amount o = cart_subtotal cart_id db + tax + shipping
    /\ List.length
         (filter (fun d => OrderDetail.order_id d =? Order.order_id o)
            (order_detail db1))
       = List.length (ShoppingCart.findAll cart_id (shopping_cart db))
    /\ ShoppingCartController.getCart customerId cart_id db1
       = Respond 200 (Items []).

(** The cart row [x] holds what an [addItemToCart] call wrote. *)
Definition written (c : string) (p : Z) (a : string) (q : Z)
    (x : ShoppingCart.row) : Prop :=
  ShoppingCart.cart_id x = c
  /\ ShoppingCart.product_id x = p
  /\ ShoppingCart.attributes x = a
  /\ ShoppingCart.quantity x = q.

(** [s.includes(t)]: [t] occurs in [s]. *)
Fixpoint includes (t s : string) : bool :=
  String.prefix t s
  || match s with
     | EmptyString => false
     | String _ s' => includes t s'
     end.

Fixpoint all_chars (f : ascii -> bool) (s : string) : bool :=
  match s with
  | EmptyString => true
  | String ch s' => f ch && all_chars f s'
  end.

(** A text without the wildcards of LIKE. *)
Definition literal (s : string) : bool :=
  all_chars (fun ch => negb ((ch =? "%") || (ch =? "_"))%char) s.

(** A text without the separators of the search terms. *)
Definition unbroken (s : string) : bool :=
  all_chars (fun ch => negb (ProductController.is_sep ch)) s.

(** A text as the collation [fold] compares it. *)
Fixpoint collated (fold : ascii -> ascii) (s : string) : string :=
  match s with
  | EmptyString => EmptyString
  | String ch s' => String (fold ch) (collated fold s')
  end.

(** The condition of [searchProduct] read as inclusion of texts: every
    name when the query has no term. *)
Definition search_includes (fold : ascii -> ascii) (all_words : option string)
    (query_string : string) (name : string) : bool :=
  if match all_words with Some w => String.eqb w "off" | None => false end
  then
    match ProductController.wordQueries query_string with
    | [] => true
    | ws =>
        existsb (fun w => includes (collated fold w) (collated fold name)) ws
    end
  else includes (collated fold query_string) (collated fold name).

(** The answer [out] lists the product [p]. *)
Definition lists (out : Outcome) (p : Product.row) : Prop :=
  exists rows,
    out = Respond 200 (Rows rows)
    /\ In (Product.product_id p) (map pv_product_id rows).

(** An answer that is a success. *)
Definition success (out : Outcome) : Prop :=
  exists body, out = Respond 200 body.

(** The element of [getCart]'s answer for the cart row [item] and its
    product [p]. *)
Definition item_of (cart_id : string) (item : ShoppingCart.row)
    (p : Product.row) : CartItem :=
  mkCartItem (ShoppingCart.item_id item) cart_id (Product.name p)
    (ShoppingCart.attributes item) (ShoppingCart.product_id item)
    (Product.image p) (Product.price p) (Product.discounted_price p)
    (ShoppingCart.quantity item)
    (ShoppingCart.quantity item * Product.price p).

(** The cart row [r] and the element [i] that [getCart] makes from it. *)
Definition shown (c : string) (ps : list Product.row) (r : ShoppingCart.row)
    (i : CartItem) : Prop :=
  exists p,
    Product.findByPk (ShoppingCart.product_id r) ps = Some p
    /\ i = item_of c r p.

(** The number of reviews of the product [p] stored under customer 1. *)
Definition reviews_of_1 (p : Z) (db : DB) : nat :=
  List.length
    (filter (fun r => (Review.product_id r =? p) && (Review.customer_id r =? 1))
       (Review.rows (reviews db))).

(** No two customers share an email. *)
Definition emails_unique (db : DB) : Prop :=
  NoDup (map Customer.email (Customer.rows (customer db))).

(** No two customers share a customer id. *)
Definition customer_ids_unique (db : DB) : Prop :=
  NoDup (map Customer.customer_id (Customer.rows (customer db))).

(** The page and the limit of a request are such that the offset
    arithmetic of the handlers is exact in double precision. *)
Definition exact_page (page limit : ProductController.param) : Prop :=
  let p := match page with Some z => z | None => 1 end in
  let n := match limit with Some z => z | None => 20 end in
  Js.safe p /\ Js.safe n /\ Js.safe (p * n).

(** The order ids in use are 1, ..., n, in this order, and the next one
    is n + 1. *)
Definition orders_dense (db : DB) : Prop :=
  map Order.order_id (Order.rows (orders db))
  = map Z.of_nat (seq 1 (List.length (Order.rows (orders db))))
  /\ Order.next_id (orders db) = Order.count (orders db) + 1.

(** * Properties *)

(** ** Cart lines *)

Section CartLines.

Import ShoppingCart.

Variables (c : string) (p : Z).

Lemma same_key_mk (i : Z) (a : string) (q : Z) (d : option Z) :
  same_key c p (mk i c p a q d) = true.
Proof.
  unfold same_key; simpl.
  now rewrite String.eqb_refl, Z.eqb_refl.
Qed.

Lemma update_first_none (a : string) (q : Z) (l : list row) :
  filter (same_key c p) l = [] -> update_first c p a q l = None.
Proof.
  induction l as [|r l IH]; simpl; intros H; [reflexivity|].
  destruct (same_key c p r); [discriminate|].
  now rewrite (IH H).
Qed.

Lemma update_first_some (a : string) (q : Z) (l : list row) (r0 : row)
    (rest : list row) :
  filter (same_key c p) l = r0 :: rest ->
  exists l',
    update_first c p a q l = Some l'
    /\ filter (same_key c p) l' = mk (item_id r0) c p a q (added_on r0) :: rest.
Proof.
  revert r0 rest.
  induction l as [|r l IH]; simpl; intros r0 rest H; [discriminate|].
  destruct (same_key c p r) eqn:E.
  - injection H as <- <-.
    eexists; split; [reflexivity|].
    simpl. now rewrite same_key_mk.
  - destruct (IH _ _ H) as (l' & -> & Hl').
    eexists; split; [reflexivity|].
    simpl. now rewrite E.
Qed.

Lemma lines_insert (t : table) (a : string) (q : Z) (d : option Z) :
  filter (same_key c p) (rows t ++ [mk (next_id t) c p a q d])
  = lines c p t ++ [mk (next_id t) c p a q d].
Proof.
  rewrite filter_app; simpl. now rewrite same_key_mk.
Qed.

End CartLines.

Section Upsert.

Import ShoppingCart.

Lemma upsert_lines (unique : bool) (stamp : option Z) (c : string) (p : Z)
    (a : string) (q : Z) (t : table) :
  lines c p (fst (upsert unique stamp c p a q t))
  = if unique
    then
      match lines c p t with
      | [] => [mk (next_id t) c p a q stamp]
      | r0 :: rest => mk (item_id r0) c p a q (added_on r0) :: rest
      end
    else lines c p t ++ [mk (next_id t) c p a q stamp].
Proof.
  unfold upsert.
  destruct unique.
  - destruct (lines c p t) as [|r0 rest] eqn:E; unfold lines in E.
    + rewrite (update_first_none c p a q _ E). simpl.
      unfold lines; simpl. rewrite lines_insert. unfold lines. now rewrite E.
    + destruct (update_first_some c p a q _ _ _ E) as (l' & -> & Hl').
      exact Hl'.
  - simpl. unfold lines at 1; simpl. apply lines_insert.
Qed.

Lemma upsert_plain_next_id (stamp : option Z) (c : string) (p : Z)
    (a : string) (q : Z) (t : table) :
  next_id (fst (upsert false stamp c p a q t)) = next_id t + 1.
Proof. reflexivity. Qed.

End Upsert.

Lemma addItemToCart_store (sc : Schema) (stamp customerId : option Z)
    (cart_id : string) (product_id : Z) (attributes : string) (quantity : Z)
    (db : DB) :
  Js.truthy customerId = true ->
  shopping_cart
    (fst (ShoppingCartController.addItemToCart sc stamp customerId cart_id
            product_id attributes quantity db))
  = fst (ShoppingCart.upsert (cart_unique sc) stamp (Js.substring 10 cart_id)
           product_id attributes quantity (shopping_cart db)).
Proof.
  intros H. unfold ShoppingCartController.addItemToCart. rewrite H.
  destruct (ShoppingCart.upsert _ _ _ _ _ _ _) as [t created].
  now destruct created.
Qed.

(** C1, as stated, fails: from the empty store, adding product 1 to the
    same cart with quantities 2 and 3 does not leave one line of quantity 5,
    neither under the cart id as supplied nor under the cart id as stored,
    and whether or not the table has a unique key on (cart_id, product_id). *)
Lemma addItemToCart_twice_not_merged :
  let after (sc : Schema) :=
    add_twice sc None None (Some 7) "0123456789abcdef" 1 "L, Red" 2 3
      Sample.empty in
  ~ one_line "abcdef" 1 5 (after Sample.plain)
  /\ ~ one_line "0123456789abcdef" 1 5 (after Sample.plain)
  /\ ~ one_line "abcdef" 1 5 (after Sample.keyed)
  /\ ~ one_line "0123456789abcdef" 1 5 (after Sample.keyed).
Proof.
  cbv zeta.
  repeat split; intros (r & Hr & Hq); vm_compute in Hr;
    try discriminate Hr;
    injection Hr as <-; vm_compute in Hq; discriminate Hq.
Qed.

(** C1, amended: two [addItemToCart] calls with a token that carries a
    customer id, the same cart id, product and attributes write under the
    cart id without its first ten characters and never add quantities up.
    Without a unique key on (cart_id, product_id) the cart gains two lines,
    of quantities q1 and q2; with one, the cart's first line for the product
    (a new one when there was none) ends with quantity q2. *)
Theorem addItemToCart_twice_lines (sc : Schema) (stamp1 stamp2 : option Z)
    (customerId : option Z) (cart_id : string) (product_id : Z)
    (attributes : string) (q1 q2 : Z) (db : DB) :
  Js.truthy customerId = true ->
  let key := Js.substring 10 cart_id in
  let t := shopping_cart db in
  ShoppingCart.lines key product_id
    (shopping_cart
       (add_twice sc stamp1 stamp2 customerId cart_id product_id attributes
          q1 q2 db))
  = if cart_unique sc
    then
      match ShoppingCart.lines key product_id t with
      | [] =>
          [ShoppingCart.mk (ShoppingCart.next_id t) key product_id attributes
             q2 stamp1]
      | r0 :: rest =>
          ShoppingCart.mk (ShoppingCart.item_id r0) key product_id attributes
            q2 (ShoppingCart.added_on r0) :: rest
      end
    else
      ShoppingCart.lines key product_id t
      ++ [ShoppingCart.mk (ShoppingCart.next_id t) key product_id attributes
            q1 stamp1;
          ShoppingCart.mk (ShoppingCart.next_id t + 1) key product_id
            attributes q2 stamp2].
Proof.
  intros H key t. unfold add_twice.
  rewrite (addItemToCart_store _ _ _ _ _ _ _ _ H), upsert_lines.
  rewrite (addItemToCart_store _ _ _ _ _ _ _ _ H), upsert_lines.
  fold key t.
  destruct (cart_unique sc).
  - now destruct (ShoppingCart.lines key product_id t).
  - rewrite upsert_plain_next_id. fold t.
    now rewrite <- app_assoc.
Qed.

Lemma addItemToCart_twice_lines_witness :
  Js.truthy (Some 7) = true
  /\ ShoppingCart.lines "abcdef" 1
       (shopping_cart
          (add_twice Sample.plain None None (Some 7) "0123456789abcdef" 1
             "L, Red" 2 3 Sample.empty))
     = [ShoppingCart.mk 1 "abcdef" 1 "L, Red" 2 None;
        ShoppingCart.mk 2 "abcdef" 1 "L, Red" 3 None].
Proof.
  split; [reflexivity|].
  exact (addItemToCart_twice_lines Sample.plain None None (Some 7)
           "0123456789abcdef" 1 "L, Red" 2 3 Sample.empty eq_refl).
Defined.

(** ** Checkout *)

Lemma with_shopping_cart_same (db : DB) :
  with_shopping_cart (shopping_cart db) db = db.
Proof. now destruct db. Qed.

Lemma with_customer_same (db : DB) : with_customer (customer db) db = db.
Proof. now destruct db. Qed.

(** C2, as stated, fails: checking out the cart "abc123" (two shirts at 10,
    one cap at 5) writes no order-detail row and leaves the cart as it was,
    whatever the tax and the shipping cost are. *)
Lemma createOrder_not_checked_out :
  let r :=
    ShoppingCartController.createOrder Sample.plain (Some 7) "abc123" 1 1
      Sample.checkout in
  ~ exists tax shipping,
      checked_out (Some 7) "abc123" tax shipping Sample.checkout (fst r) (snd r).
Proof.
  cbv zeta. intros (tax & shipping & o & _ & _ & _ & _ & H).
  vm_compute in H. discriminate H.
Qed.

(** C2, amended: [createOrder] adds one order row that carries the caller's
    customer id and the cart, shipping and tax ids of the request, with
    total_amount at its column default; it answers 201 with the number of
    order rows as order_id; it writes no order-detail row and leaves the
    cart and the products as they were, so that a subsequent [getCart]
    answers what it answered before. *)
Theorem createOrder_adds_order_row_only (sc : Schema) (customerId : option Z)
    (cart_id : string) (shipping_id tax_id : Z) (db : DB) :
  let r :=
    ShoppingCartController.createOrder sc customerId cart_id shipping_id
      tax_id db in
  Order.rows (orders (fst r))
  = Order.rows (orders db)
    ++ [Order.mk (Order.next_id (orders db)) customerId cart_id shipping_id
          tax_id (order_total_default sc)]
  /\ snd r
     = Respond 201
         (OrderId (Z.of_nat (List.length (Order.rows (orders db))) + 1))
  /\ order_detail (fst r) = order_detail db
  /\ shopping_cart (fst r) = shopping_cart db
  /\ product (fst r) = product db
  /\ (forall c id,
        ShoppingCartController.getCart c id (fst r)
        = ShoppingCartController.getCart c id db).
Proof.
  cbv zeta. unfold ShoppingCartController.createOrder, Order.upsert; simpl.
  repeat split.
  unfold Order.count; simpl. rewrite length_app; simpl.
  do 2 f_equal. lia.
Qed.

(** [getCart], for comparison, joins the live product table: the subtotal
    it shows follows the price. *)
Example getCart_reads_product_price :
  ShoppingCartController.getCart (Some 7) "abc123" Sample.checkout
  <> ShoppingCartController.getCart (Some 7) "abc123"
       (with_product
          [Product.mk 1 "blue shirt" "A blue shirt" 12 0 "shirt.gif"
             "shirt-2.gif" "shirt-thumbnail.gif" 0; Sample.cap]
          Sample.checkout).
Proof. discriminate. Qed.

(** C3, as stated, fails: the order that [createOrder] makes of the cart
    "abc123" has no stored line item: [getOrderSummary] answers 404 for the
    order id that [createOrder] has just answered with. *)
Lemma createOrder_stores_no_snapshot :
  let r :=
    ShoppingCartController.createOrder Sample.plain (Some 7) "abc123" 1 1
      Sample.checkout in
  snd r = Respond 201 (OrderId 1)
  /\ ~ exists items,
        ShoppingCartController.getOrderSummary Sample.plain 1 (fst r)
        = Respond 200 (OrderSummary 1 items).
Proof.
  cbv zeta. split; [reflexivity|].
  intros (items & H). vm_compute in H. discriminate H.
Qed.

(** C3, amended: [createOrder] stores no line items.  After it, and
    whatever the product table becomes afterwards (changed prices and
    discounted prices included), [getOrderSummary] answers for an id from
    the order_detail rows that were there before the order was created: 200
    with the first row whose primary key is the id, which it shows as it is
    stored, and 404 'The order does not exist' when there is none - so also
    for the new order, on a store without order-detail rows. *)
Theorem getOrderSummary_after_createOrder (sc : Schema)
    (customerId : option Z) (cart_id : string) (shipping_id tax_id : Z)
    (db : DB) (later : list Product.row) (order_id : Z) :
  let db1 :=
    fst (ShoppingCartController.createOrder sc customerId cart_id shipping_id
           tax_id db) in
  let out :=
    ShoppingCartController.getOrderSummary sc order_id (with_product later db1) in
  ((exists o, In o (order_detail db) /\ order_detail_pk sc o = order_id)
   -> exists o,
        out = Respond 200 (OrderSummary order_id o)
        /\ In o (order_detail db)
        /\ order_detail_pk sc o = order_id)
  /\ ((forall o, In o (order_detail db) -> order_detail_pk sc o <> order_id)
      -> out = Respond 404 (Text "The order does not exist"))
  /\ (order_detail db = []
      -> out = Respond 404 (Text "The order does not exist"))
  /\ out = ShoppingCartController.getOrderSummary sc order_id db.
Proof.
  cbv zeta.
  unfold ShoppingCartController.getOrderSummary, OrderDetail.findByPk; simpl.
  destruct (find _ (order_detail db)) as [o|] eqn:E.
  - apply find_some in E as [Hin Hpk]. apply Z.eqb_eq in Hpk.
    repeat split.
    + intros _. now exists o.
    + intros H. now destruct (H o Hin).
    + intros H. rewrite H in Hin. destruct Hin.
  - repeat split.
    intros (o & Hin & Hpk).
    pose proof (find_none _ _ E o Hin) as Hn. simpl in Hn.
    rewrite Hpk, Z.eqb_refl in Hn. discriminate Hn.
Qed.

(** ** Deletions *)

Section Destroy.

Context {A : Type} (f : A -> bool).

Lemma count_is_zero (l : list A) :
  (Z.of_nat (List.length (filter f l)) =? 0) = negb (existsb f l).
Proof.
  induction l as [|x l IH]; simpl; [reflexivity|].
  destruct (f x); simpl; [reflexivity|exact IH].
Qed.

Lemma none_left (l : list A) :
  existsb f (filter (fun x => negb (f x)) l) = false.
Proof.
  induction l as [|x l IH]; simpl; [reflexivity|].
  destruct (f x) eqn:E; simpl; [exact IH|].
  now rewrite E.
Qed.

End Destroy.

Lemma removeItemFromCart_outcome (customerId : option Z) (item_id : Z) (db : DB) :
  snd (ShoppingCartController.removeItemFromCart customerId item_id db)
  = if Js.truthy customerId
       && existsb (fun r => ShoppingCart.item_id r =? item_id)
            (ShoppingCart.rows (shopping_cart db))
    then Respond 200 (Message "successfully removed the item")
    else Respond 400 (Text "Unable to remove the item").
Proof.
  unfold ShoppingCartController.removeItemFromCart, ShoppingCart.destroy.
  destruct (Js.truthy customerId); simpl; [|reflexivity].
  rewrite count_is_zero, negb_involutive.
  now destruct (existsb _ _).
Qed.

Lemma emptyCart_outcome (customerId : option Z) (cart_id : string) (db : DB) :
  snd (ShoppingCartController.emptyCart customerId cart_id db)
  = if Js.truthy customerId
       && existsb (fun r => String.eqb (ShoppingCart.cart_id r) cart_id)
            (ShoppingCart.rows (shopping_cart db))
    then Respond 200 (Items [])
    else Respond 400 (Text "Unable to empty cart").
Proof.
  unfold ShoppingCartController.emptyCart, ShoppingCart.destroy.
  destruct (Js.truthy customerId); simpl; [|reflexivity].
  rewrite count_is_zero, negb_involutive.
  now destruct (existsb _ _).
Qed.

Lemma removeItemFromCart_store (customerId : option Z) (item_id : Z) (db : DB) :
  ShoppingCart.rows
    (shopping_cart
       (fst (ShoppingCartController.removeItemFromCart customerId item_id db)))
  = if Js.truthy customerId
    then filter (fun r => negb (ShoppingCart.item_id r =? item_id))
           (ShoppingCart.rows (shopping_cart db))
    else ShoppingCart.rows (shopping_cart db).
Proof.
  unfold ShoppingCartController.removeItemFromCart, ShoppingCart.destroy.
  destruct (Js.truthy customerId); simpl; [|reflexivity].
  now destruct (negb _).
Qed.

Lemma emptyCart_store (customerId : option Z) (cart_id : string) (db : DB) :
  ShoppingCart.rows
    (shopping_cart (fst (ShoppingCartController.emptyCart customerId cart_id db)))
  = if Js.truthy customerId
    then filter (fun r => negb (String.eqb (ShoppingCart.cart_id r) cart_id))
           (ShoppingCart.rows (shopping_cart db))
    else ShoppingCart.rows (shopping_cart db).
Proof.
  unfold ShoppingCartController.emptyCart, ShoppingCart.destroy.
  destruct (Js.truthy customerId); simpl; [|reflexivity].
  now destruct (negb _).
Qed.

(** C4, as stated, fails: removing item 1 of the cart "abc123" a second
    time, removing an item that never existed and emptying a cart that has
    no line are each answered with an error, not with a success. *)
Lemma deleting_nothing_is_refused :
  let once :=
    ShoppingCartController.removeItemFromCart (Some 7) 1 Sample.checkout in
  success (snd once)
  /\ ~ success
        (snd (ShoppingCartController.removeItemFromCart (Some 7) 1 (fst once)))
  /\ ~ success
        (snd (ShoppingCartController.removeItemFromCart (Some 7) 99
                Sample.checkout))
  /\ ~ success
        (snd (ShoppingCartController.emptyCart (Some 7) "abc123" Sample.empty)).
Proof.
  cbv zeta. split; [eexists; reflexivity|].
  repeat split; intros (body & H); vm_compute in H; discriminate H.
Qed.

(** C4, amended: [removeItemFromCart] and [emptyCart] answer 200 exactly
    when the token carries a customer id and at least one row is deleted;
    removing an item that does not exist and emptying a cart without lines
    are answered 400 ('Unable to remove the item', 'Unable to empty cart').
    A repeated deletion therefore is answered 400, and leaves the cart
    table as the first deletion left it. *)
Theorem deletions_answer_by_affected_rows (customerId : option Z)
    (item_id : Z) (cart_id : string) (db : DB) :
  let remove := ShoppingCartController.removeItemFromCart customerId item_id in
  let empty := ShoppingCartController.emptyCart customerId cart_id in
  let cart d := ShoppingCart.rows (shopping_cart d) in
  snd (remove db)
  = (if Js.truthy customerId
        && existsb (fun r => ShoppingCart.item_id r =? item_id) (cart db)
     then Respond 200 (Message "successfully removed the item")
     else Respond 400 (Text "Unable to remove the item"))
  /\ snd (empty db)
     = (if Js.truthy customerId
           && existsb (fun r => String.eqb (ShoppingCart.cart_id r) cart_id)
                (cart db)
        then Respond 200 (Items [])
        else Respond 400 (Text "Unable to empty cart"))
  /\ snd (remove (fst (remove db)))
     = Respond 400 (Text "Unable to remove the item")
  /\ snd (empty (fst (empty db))) = Respond 400 (Text "Unable to empty cart")
  /\ cart (fst (remove (fst (remove db)))) = cart (fst (remove db))
  /\ cart (fst (empty (fst (empty db)))) = cart (fst (empty db)).
Proof.
  cbv zeta.
  split; [apply removeItemFromCart_outcome|].
  split; [apply emptyCart_outcome|].
  repeat split.
  - rewrite removeItemFromCart_outcome, removeItemFromCart_store.
    destruct (Js.truthy customerId); simpl; [|reflexivity].
    now rewrite (none_left (fun r => ShoppingCart.item_id r =? item_id)).
  - rewrite emptyCart_outcome, emptyCart_store.
    destruct (Js.truthy customerId); simpl; [|reflexivity].
    now rewrite
      (none_left (fun r => String.eqb (ShoppingCart.cart_id r) cart_id)).
  - rewrite !removeItemFromCart_store.
    destruct (Js.truthy customerId); [|reflexivity].
    induction (ShoppingCart.rows (shopping_cart db)) as [|r l IH];
      simpl; [reflexivity|].
    destruct (ShoppingCart.item_id r =? item_id) eqn:E; simpl; [exact IH|].
    rewrite E; simpl. now rewrite IH.
  - rewrite !emptyCart_store.
    destruct (Js.truthy customerId); [|reflexivity].
    induction (ShoppingCart.rows (shopping_cart db)) as [|r l IH];
      simpl; [reflexivity|].
    destruct (String.eqb (ShoppingCart.cart_id r) cart_id) eqn:E; simpl;
      [exact IH|].
    rewrite E; simpl. now rewrite IH.
Qed.

(** ** The cart id a line is stored under *)

Lemma length_substring (n : nat) (s : string) :
  String.length (Js.substring n s) = (String.length s - n)%nat.
Proof.
  revert s. induction n as [|n IH]; intros s; simpl.
  - now rewrite Nat.sub_0_r.
  - destruct s as [|ch s]; simpl; [reflexivity|apply IH].
Qed.

Lemma substring_differs (s : string) :
  (10 < String.length s)%nat -> String.eqb (Js.substring 10 s) s = false.
Proof.
  intros H. apply String.eqb_neq. intros E.
  apply (f_equal String.length) in E.
  rewrite length_substring in E. lia.
Qed.

Section OtherCarts.

Import ShoppingCart.

Variables (c c' : string) (p : Z).
Hypothesis Hc : String.eqb c c' = false.

Lemma same_key_other (r : row) :
  same_key c p r = true -> String.eqb (cart_id r) c' = false.
Proof.
  unfold same_key. intros H.
  apply andb_prop in H as [H _]. apply String.eqb_eq in H.
  now rewrite H.
Qed.

Lemma update_first_other (a : string) (q : Z) (l l' : list row) :
  update_first c p a q l = Some l' ->
  filter (fun r => String.eqb (cart_id r) c') l'
  = filter (fun r => String.eqb (cart_id r) c') l.
Proof.
  revert l'. induction l as [|r l IH]; simpl; intros l' H; [discriminate|].
  destruct (same_key c p r) eqn:E.
  - injection H as <-. simpl.
    now rewrite Hc, (same_key_other r E).
  - destruct (update_first c p a q l) as [l0|]; [|discriminate].
    injection H as <-. simpl. now rewrite (IH l0 eq_refl).
Qed.

Lemma upsert_findAll_other (unique : bool) (stamp : option Z) (a : string)
    (q : Z) (t : table) :
  findAll c' (fst (upsert unique stamp c p a q t)) = findAll c' t.
Proof.
  unfold upsert, findAll.
  destruct (if unique then update_first c p a q (rows t) else None)
    as [l|] eqn:E; simpl.
  - destruct unique; [|discriminate]. now apply update_first_other with a q.
  - rewrite filter_app; simpl. rewrite Hc. apply app_nil_r.
Qed.

End OtherCarts.

Section Latest.

Import ShoppingCart.

Lemma added_on_leb_total (a b : option Z) :
  added_on_leb a b = false -> added_on_leb b a = true.
Proof.
  destruct a as [x|], b as [y|]; simpl; try easy.
  intros H. apply Z.leb_gt in H. apply Z.leb_le. lia.
Qed.

Lemma added_on_leb_trans (a b d : option Z) :
  added_on_leb a b = true -> added_on_leb b d = true ->
  added_on_leb a d = true.
Proof.
  destruct a as [x|], b as [y|], d as [z|]; simpl; try easy.
  rewrite !Z.leb_le. lia.
Qed.

Lemma added_on_leb_refl (a : option Z) : added_on_leb a a = true.
Proof. destruct a; simpl; [apply Z.leb_refl|reflexivity]. Qed.

Lemma latest_is_max (l : list row) (m : row) :
  latest l = Some m ->
  In m l /\ forall r, In r l -> added_on_leb (added_on r) (added_on m) = true.
Proof.
  revert m. induction l as [|x l IH]; simpl; intros m H; [discriminate|].
  destruct (latest l) as [m0|] eqn:E.
  - destruct (IH m0 eq_refl) as [Hin Hmax].
    destruct (added_on_leb (added_on m0) (added_on x)) eqn:L;
      injection H as <-.
    + split; [now left|].
      intros r [<-|Hr]; [apply added_on_leb_refl|].
      eapply added_on_leb_trans; [apply Hmax, Hr|exact L].
    + split; [now right|].
      intros r [<-|Hr]; [now apply added_on_leb_total|now apply Hmax].
  - injection H as <-. split; [now left|].
    intros r [<-|Hr]; [apply added_on_leb_refl|].
    destruct l; [destruct Hr|].
    simpl in E. now destruct (latest l), (added_on_leb _ _).
Qed.

Lemma latest_some (l : list row) (x : row) :
  In x l -> exists m, latest l = Some m.
Proof.
  destruct l as [|y l]; [intros []|intros _; simpl].
  destruct (latest l) as [m0|]; [|now eexists].
  destruct (added_on_leb _ _); now eexists.
Qed.

End Latest.

Section UpsertRows.

Import ShoppingCart.

Variables (c : string) (p : Z) (a : string) (q : Z).


Lemma update_first_rows (l l' : list row) :
  update_first c p a q l = Some l' ->
  (exists x, In x l' /\ written c p a q x)
  /\ (forall x, In x l' -> In x l \/ written c p a q x).
Proof.
  revert l'. induction l as [|r l IH]; simpl; intros l' H; [discriminate|].
  destruct (same_key c p r).
  - injection H as <-. split.
    + eexists; split; [now left|]. now repeat split.
    + intros x [<-|Hx]; [right; now repeat split|left; now right].
  - destruct (update_first c p a q l) as [l0|]; [|discriminate].
    injection H as <-.
    destruct (IH l0 eq_refl) as [(x & Hx & Hw) Hall]. split.
    + exists x; split; [now right|exact Hw].
    + intros y [<-|Hy]; [left; now left|].
      destruct (Hall y Hy) as [?|?]; [left; now right|now right].
Qed.

Lemma upsert_cases (unique : bool) (stamp : option Z) (t : table) :
  let r := upsert unique stamp c p a q t in
  (snd r = true
   /\ rows (fst r) = rows t ++ [mk (next_id t) c p a q stamp])
  \/ (snd r = false /\ unique = true /\ lines c p t <> []
      /\ update_first c p a q (rows t) = Some (rows (fst r))).
Proof.
  cbv zeta. unfold upsert.
  destruct unique; [|now left].
  destruct (update_first c p a q (rows t)) as [l|] eqn:E; [|now left].
  right. repeat split.
  intros Hl. unfold lines in Hl.
  rewrite (update_first_none c p a q _ Hl) in E. discriminate E.
Qed.

Lemma upsert_rows (unique : bool) (stamp : option Z) (t : table) :
  let t' := fst (upsert unique stamp c p a q t) in
  (exists x, In x (rows t') /\ written c p a q x)
  /\ (forall x, In x (rows t') -> In x (rows t) \/ written c p a q x).
Proof.
  cbv zeta.
  destruct (upsert_cases unique stamp t) as [[_ ->]|(_ & _ & _ & H)].
  - split.
    + eexists; split; [apply in_or_app; right; now left|now repeat split].
    + intros x Hx. apply in_app_or in Hx as [?|[<-|[]]];
        [now left|right; now repeat split].
  - now apply update_first_rows.
Qed.

End UpsertRows.

Lemma addItemToCart_unfold (sc : Schema) (stamp customerId : option Z)
    (cart_id : string) (product_id : Z) (attributes : string) (quantity : Z)
    (db : DB) :
  Js.truthy customerId = true ->
  let u :=
    ShoppingCart.upsert (cart_unique sc) stamp (Js.substring 10 cart_id)
      product_id attributes quantity (shopping_cart db) in
  ShoppingCartController.addItemToCart sc stamp customerId cart_id product_id
    attributes quantity db
  = (with_shopping_cart (fst u) db,
     if snd u
     then
       Respond 201
         (Line
            (option_map ShoppingCart.project
               (ShoppingCart.findOne_latest product_id (fst u))))
     else Respond 400 (Text "Could not add item to cart.")).
Proof.
  intros H. cbv zeta. unfold ShoppingCartController.addItemToCart. rewrite H.
  destruct (ShoppingCart.upsert _ _ _ _ _ _ _) as [t created]; simpl.
  now destruct created.
Qed.

Lemma addItemToCart_answers_another_cart :
  snd (ShoppingCartController.addItemToCart Sample.plain None (Some 7)
         "0123456789abcdef" 1 "L" 2 Sample.other_cart)
  = Respond 201 (Line (Some (mkCartLine 1 "zzz" 1 "M" 4))).
Proof. reflexivity. Qed.

(** C5: an [addItemToCart] call with a token that carries a customer id
    writes its line under the cart id without its first ten characters, and
    writes nothing else.  For a cart id longer than ten characters a
    subsequent [getCart] with the cart id as supplied answers what it
    answered before the call, so it does not show the line.  The call
    answers 201 with a line for the product whose added_on is the latest
    among all lines for that product, in whatever cart (or 400 when a unique
    key made the upsert an update); that line need not be the one just
    written, as the last part shows on a store where the product already
    lies in another cart. *)
Theorem addItemToCart_stored_cart_id (sc : Schema) (stamp customerId : option Z)
    (cart_id : string) (product_id : Z) (attributes : string) (quantity : Z)
    (db : DB) :
  Js.truthy customerId = true ->
  (10 < String.length cart_id)%nat ->
  let key := Js.substring 10 cart_id in
  let r :=
    ShoppingCartController.addItemToCart sc stamp customerId cart_id
      product_id attributes quantity db in
  let cart d := ShoppingCart.rows (shopping_cart d) in
  (exists x, In x (cart (fst r)) /\ written key product_id attributes quantity x)
  /\ (forall x,
        In x (cart (fst r)) ->
        In x (cart db) \/ written key product_id attributes quantity x)
  /\ (forall c0,
        ShoppingCartController.getCart c0 cart_id (fst r)
        = ShoppingCartController.getCart c0 cart_id db)
  /\ ((snd r = Respond 400 (Text "Could not add item to cart.")
       /\ cart_unique sc = true
       /\ ShoppingCart.lines key product_id (shopping_cart db) <> [])
      \/ exists m,
           snd r = Respond 201 (Line (Some (ShoppingCart.project m)))
           /\ In m (cart (fst r))
           /\ ShoppingCart.product_id m = product_id
           /\ forall x,
                In x (cart (fst r)) ->
                ShoppingCart.product_id x = product_id ->
                ShoppingCart.added_on_leb (ShoppingCart.added_on x)
                  (ShoppingCart.added_on m) = true)
  /\ (exists db0 l,
        snd (ShoppingCartController.addItemToCart Sample.plain None (Some 7)
               "0123456789abcdef" 1 "L" 2 db0)
        = Respond 201 (Line (Some l))
        /\ line_cart_id l <> Js.substring 10 "0123456789abcdef").
Proof.
  intros Ht Hlen key r cart. subst r cart.
  rewrite (addItemToCart_unfold _ _ _ _ _ _ _ _ Ht). cbv zeta. fold key. simpl.
  pose proof (upsert_rows key product_id attributes quantity (cart_unique sc)
                stamp (shopping_cart db)) as [Hex Hall].
  split; [exact Hex|]. split; [exact Hall|]. split; [|split].
  - intros c0. unfold ShoppingCartController.getCart; simpl.
    now rewrite (upsert_findAll_other key cart_id product_id
                   (substring_differs cart_id Hlen)).
  - destruct (upsert_cases key product_id attributes quantity (cart_unique sc)
                stamp (shopping_cart db)) as [[Hs Hrows]|(Hs & Hu & Hl & _)];
      rewrite Hs; [right|left; now repeat split].
    unfold ShoppingCart.findOne_latest.
    destruct (latest_some
                (filter (fun x => ShoppingCart.product_id x =? product_id)
                   (ShoppingCart.rows
                      (fst (ShoppingCart.upsert (cart_unique sc) stamp key
                              product_id attributes quantity
                              (shopping_cart db)))))
                (ShoppingCart.mk (ShoppingCart.next_id (shopping_cart db)) key
                   product_id attributes quantity stamp)) as [m Hm].
    { apply filter_In. split; [|apply Z.eqb_refl].
      rewrite Hrows. apply in_or_app; right; now left. }
    exists m. rewrite Hm. split; [reflexivity|].
    apply latest_is_max in Hm as [Hin Hmax].
    apply filter_In in Hin as [Hin Hp]. apply Z.eqb_eq in Hp.
    repeat split; [exact Hin|exact Hp|].
    intros x Hx Hxp. apply Hmax, filter_In. split; [exact Hx|].
    now apply Z.eqb_eq.
  - exists Sample.other_cart. eexists. split.
    + apply addItemToCart_answers_another_cart.
    + discriminate.
Qed.

Lemma addItemToCart_stored_cart_id_witness :
  Js.truthy (Some 7) = true
  /\ (10 < String.length "0123456789abcdef")%nat
  /\ (forall c0,
        ShoppingCartController.getCart c0 "0123456789abcdef"
          (fst (ShoppingCartController.addItemToCart Sample.plain None (Some 7)
                  "0123456789abcdef" 1 "L" 2 Sample.catalog))
        = ShoppingCartController.getCart c0 "0123456789abcdef" Sample.catalog).
Proof.
  split; [reflexivity|]. split; [simpl; lia|].
  exact (proj1 (proj2 (proj2
    (addItemToCart_stored_cart_id Sample.plain None (Some 7)
       "0123456789abcdef" 1 "L" 2 Sample.catalog eq_refl
       ltac:(simpl; lia))))).
Defined.

(** ** Pagination *)

Section Pagination.

Import ProductController.

(** [getAllProducts] and [searchProduct] query with the offset
    (page - 1) * limit, a page below 1 counting as 1 and a missing limit
    as 20. *)
Lemma query_map_offset (page limit : param) :
  let p := match page with Some z => Z.max 1 z | None => 1 end in
  let n := match limit with Some z => z | None => 20 end in
  query_map page limit = (Js.Num ((p - 1) * n), Js.Num n).
Proof.
  cbv zeta.
  unfold query_map, default_page, default_limit, offset_of, absent, Number.
  destruct page as [z|], limit as [n|]; cbn [Js.mul Js.sub];
    try (destruct (Z.ltb_spec z 1);
         [rewrite Z.max_l by lia|rewrite Z.max_r by lia]);
    cbn [Js.mul Js.sub];
    apply f_equal2; try reflexivity; apply f_equal; ring.
Qed.

Lemma late_offset (page limit : param) :
  fst (query_map_late page limit) = offset_of page limit.
Proof. reflexivity. Qed.

End Pagination.

(** C6 holds of [getAllProducts] and [searchProduct] but not of
    [getProductsByCategory] and [getProductsByDepartment], which compute the
    offset before they apply the defaults: there page 0 with limit 20 gives
    the offset -20 and page -5 the offset -120, not 0, a missing page or
    limit gives NaN, and the query is refused. *)
Theorem late_offset_misses_defaults (id : Z) (db : DB) :
  ProductController.query_map_late (Some 0) (Some 20) = (Js.Num (-20), Js.Num 20)
  /\ ProductController.query_map_late (Some (-5)) (Some 20)
     = (Js.Num (-120), Js.Num 20)
  /\ ProductController.query_map_late (Some 2) None = (Js.NaN, Js.Num 20)
  /\ ProductController.query_map_late None (Some 20) = (Js.NaN, Js.Num 20)
  /\ ProductController.getProductsByCategory id (Some 0) (Some 20) db = Next
  /\ ProductController.getProductsByCategory id (Some 2) None db = Next
  /\ ProductController.getProductsByDepartment id (Some 0) (Some 20) db = Next
  /\ ProductController.getProductsByDepartment id (Some 2) None db = Next
  /\ ProductController.query_map (Some 0) (Some 20) = (Js.Num 0, Js.Num 20)
  /\ ProductController.query_map (Some (-5)) (Some 20) = (Js.Num 0, Js.Num 20)
  /\ ProductController.query_map (Some 2) None = (Js.Num 20, Js.Num 20).
Proof. repeat split. Qed.

(** ** Search *)

Section Like.

Import Sql.

Variable fold : ascii -> ascii.

Lemma like_any (p s : string) :
  like fold (String "%" p) s
  = like fold p s
    || match s with
       | EmptyString => false
       | String _ s' => like fold (String "%" p) s'
       end.
Proof. now destruct s. Qed.

Lemma like_any_last (s : string) : like fold "%" s = true.
Proof.
  induction s as [|ch s IH]; [reflexivity|].
  rewrite like_any, IH. apply orb_true_r.
Qed.

Lemma like_literal_prefix (t s : string) :
  literal t = true ->
  like fold (t ++ "%") s = String.prefix (collated fold t) (collated fold s).
Proof.
  revert s. induction t as [|a t IH]; intros s H.
  - simpl String.append. rewrite like_any_last. now destruct s.
  - unfold literal in H; simpl in H.
    apply andb_prop in H as [Ha Ht].
    apply negb_true_iff, orb_false_iff in Ha as [Ha1 Ha2].
    simpl. rewrite Ha1, Ha2.
    destruct s as [|d s]; [reflexivity|].
    rewrite (IH s Ht). simpl.
    destruct (Ascii.eqb_spec (fold a) (fold d)) as [E|Hn]; simpl.
    + rewrite E. now destruct (ascii_dec (fold d) (fold d)).
    + now destruct (ascii_dec (fold a) (fold d)).
Qed.

Lemma like_includes (t s : string) :
  literal t = true ->
  like fold ("%" ++ t ++ "%") s = includes (collated fold t) (collated fold s).
Proof.
  intros H. induction s as [|ch s IH].
  - simpl String.append. rewrite like_any, like_literal_prefix by exact H.
    simpl. now rewrite orb_false_r.
  - simpl String.append in *. rewrite like_any.
    rewrite like_literal_prefix by exact H.
    rewrite IH. reflexivity.
Qed.

End Like.

Lemma prefix_split (t s : string) :
  String.prefix t s = true <-> exists b, s = (t ++ b)%string.
Proof.
  revert s. induction t as [|a t IH]; intros s; simpl.
  - split; [intros _; now exists s|intros _; now destruct s].
  - destruct s as [|d s]; simpl.
    + split; [discriminate|intros (b & H); discriminate H].
    + destruct (ascii_dec a d) as [->|Hn].
      * rewrite IH. split; intros (b & H); exists b.
        -- now rewrite H.
        -- now injection H.
      * split; [discriminate|].
        intros (b & H). injection H as H _. now destruct Hn.
Qed.

(** [includes t s] says that [t] occurs in [s]. *)
Lemma includes_spec (t s : string) :
  includes t s = true <-> exists a b, s = (a ++ t ++ b)%string.
Proof.
  induction s as [|ch s IH]; cbn [includes].
  - rewrite orb_false_r. split.
    + intros H. destruct t; [now exists EmptyString, EmptyString|discriminate H].
    + intros (a & b & H). destruct a; [|discriminate H].
      simpl in H. destruct t; [reflexivity|discriminate H].
  - rewrite orb_true_iff, IH, prefix_split. split.
    + intros [(b & H)|(a & b & H)].
      * now exists EmptyString, b.
      * exists (String ch a), b. simpl. now rewrite H.
    + intros (a & b & H). destruct a as [|x a].
      * left. now exists b.
      * right. injection H as _ H. now exists a, b.
Qed.

Section Split.

Import ProductController.

Variable f : ascii -> bool.

Lemma all_chars_snoc (s : string) (ch : ascii) :
  all_chars f s = true -> f ch = true ->
  all_chars f (s ++ String ch EmptyString) = true.
Proof.
  intros Hs Hc. induction s as [|x s IH]; simpl in *.
  - now rewrite Hc.
  - apply andb_prop in Hs as [-> Hs]. now apply IH.
Qed.

(** The pieces of a split are made of characters of the text. *)
Lemma split_from_chars (s cur : string) (in_sep : bool) (w : string) :
  all_chars f s = true -> all_chars f cur = true ->
  In w (split_from s cur in_sep) -> all_chars f w = true.
Proof.
  revert cur in_sep. induction s as [|ch s IH]; simpl; intros cur in_sep Hs Hc Hw.
  - destruct Hw as [<-|[]]. exact Hc.
  - apply andb_prop in Hs as [Hch Hs].
    destruct (is_sep ch).
    + destruct in_sep.
      * now apply (IH EmptyString true).
      * destruct Hw as [<-|Hw]; [exact Hc|]. now apply (IH EmptyString true).
    + apply (IH (cur ++ String ch EmptyString)%string false); try assumption.
      now apply all_chars_snoc.
Qed.

End Split.

(** The pieces of a split hold no separator. *)
Lemma split_from_unbroken (s cur : string) (in_sep : bool) (w : string) :
  unbroken cur = true ->
  In w (ProductController.split_from s cur in_sep) -> unbroken w = true.
Proof.
  revert cur in_sep. induction s as [|ch s IH]; simpl; intros cur in_sep Hc Hw.
  - destruct Hw as [<-|[]]. exact Hc.
  - destruct (ProductController.is_sep ch) eqn:E.
    + destruct in_sep.
      * now apply (IH EmptyString true).
      * destruct Hw as [<-|Hw]; [exact Hc|]. now apply (IH EmptyString true).
    + apply (IH (cur ++ String ch EmptyString)%string false); [|assumption].
      apply all_chars_snoc; [exact Hc|]. now rewrite E.
Qed.

Lemma wordQueries_literal (q w : string) :
  literal q = true -> In w (ProductController.wordQueries q) -> literal w = true.
Proof.
  intros Hq Hw. apply filter_In in Hw as [Hw _].
  now apply (split_from_chars _ q EmptyString false w Hq).
Qed.

Lemma wordQueries_terms (q w : string) :
  In w (ProductController.wordQueries q) ->
  w <> EmptyString /\ unbroken w = true.
Proof.
  intros Hw. apply filter_In in Hw as [Hw Hn]. split.
  - now destruct w.
  - now apply (split_from_unbroken q EmptyString false).
Qed.

Lemma existsb_conds {A : Type} (g : A -> string -> bool) (ws : list A)
    (v : string) :
  existsb (fun cond => cond v) (map g ws) = existsb (fun w => g w v) ws.
Proof.
  induction ws as [|w ws IH]; simpl; [reflexivity|]. now rewrite IH.
Qed.

Lemma existsb_agree {A : Type} (g h : A -> bool) (l : list A) :
  (forall x, In x l -> g x = h x) -> existsb g l = existsb h l.
Proof.
  induction l as [|x l IH]; simpl; intros H; [reflexivity|].
  rewrite (H x (or_introl eq_refl)), IH; [reflexivity|].
  intros y Hy. apply H. now right.
Qed.

Lemma search_where_includes (fold : ascii -> ascii)
    (all_words : option string) (q name : string) :
  literal q = true ->
  ProductController.search_where fold all_words q name
  = search_includes fold all_words q name.
Proof.
  intros Hq. unfold ProductController.search_where, search_includes.
  destruct (match all_words with Some w => String.eqb w "off" | None => false end).
  - unfold Sql.Op_or.
    pose proof (wordQueries_literal q) as Hw.
    destruct (ProductController.wordQueries q) as [|w ws]; [reflexivity|].
    change (existsb (fun cond => cond name)
              (map (fun w0 => Sql.like fold ("%" ++ w0 ++ "%")) (w :: ws))
            = existsb
                (fun w0 => includes (collated fold w0) (collated fold name))
                (w :: ws)).
    rewrite existsb_conds. apply existsb_agree.
    intros x Hx. apply like_includes. now apply Hw.
  - now apply like_includes.
Qed.

(** C7, as stated, fails: with all_words 'on' the query "shirt blue" does
    not list the product named "blue shirt", although that name contains
    every term of the query; under a binary collation and under one that
    ignores case alike. *)
Lemma searchProduct_all_words_is_one_phrase :
  let out fold :=
    ProductController.searchProduct fold None None None (Some "on")
      "shirt blue" Sample.catalog in
  forallb (fun w => includes w (Product.name Sample.shirt))
    (ProductController.wordQueries "shirt blue") = true
  /\ ~ lists (out Sample.binary) Sample.shirt
  /\ ~ lists (out Sample.lower) Sample.shirt.
Proof.
  cbv zeta. split; [reflexivity|].
  split; intros (rows & H & Hin); vm_compute in H;
    injection H as <-; destruct Hin.
Qed.

(** Only blanks and commas separate terms: a tab does not. *)
Example wordQueries_tab :
  ProductController.wordQueries ("red" ++ String (ascii_of_nat 9) "cap, blue")
  = [("red" ++ String (ascii_of_nat 9) "cap")%string; "blue"].
Proof. reflexivity. Qed.

(** C7, amended: for a query string without the LIKE wildcards % and _,
    [searchProduct] answers the requested page of the products selected as
    follows, texts being compared as the collation of the name column
    compares them.  With all_words 'off' the query is split on runs of
    blanks and commas into its non-empty terms, and a product is selected
    when its name contains at least one term; every product is selected
    when the query has no term.  With any other all_words the query is not
    split: a product is selected when its name contains the query string as
    a whole. *)
Theorem searchProduct_by_inclusion (fold : ascii -> ascii)
    (page limit description_length : ProductController.param)
    (all_words : option string) (query_string : string) (db : DB) :
  literal query_string = true ->
  ProductController.searchProduct fold page limit description_length
    all_words query_string db
  = match
      Sql.slice (fst (ProductController.query_map page limit))
        (snd (ProductController.query_map page limit))
        (filter
           (fun p =>
              search_includes fold all_words query_string (Product.name p))
           (product db))
    with
    | Some products =>
        Respond 200
          (Rows
             (map
                (ProductController.view
                   (ProductController.default_description_length
                      description_length))
                products))
    | None => Next
    end
  /\ (forall w,
        In w (ProductController.wordQueries query_string) ->
        w <> EmptyString /\ unbroken w = true /\ literal w = true)
  /\ (ProductController.wordQueries query_string = [] ->
      forall name,
        ProductController.search_where fold (Some "off") query_string name
        = true).
Proof.
  intros Hq. split; [|split].
  - unfold ProductController.searchProduct.
    destruct (ProductController.query_map page limit) as [offset n]; simpl.
    rewrite (filter_ext _
               (fun p =>
                  search_includes fold all_words query_string
                    (Product.name p)));
      [reflexivity|].
    intros p. now apply search_where_includes.
  - intros w Hw. destruct (wordQueries_terms _ _ Hw) as [Hn Hu].
    repeat split; [exact Hn|exact Hu|].
    now apply (wordQueries_literal query_string).
  - intros H name. unfold ProductController.search_where; simpl.
    now rewrite H.
Qed.

Lemma searchProduct_by_inclusion_witness :
  literal "CAP,blue" = true
  /\ ProductController.searchProduct Sample.lower None None None (Some "off")
       "CAP,blue" Sample.catalog
     = Respond 200
         (Rows
            [mkView 1 "blue shirt" "A blue shirt" 10 0 "shirt-thumbnail.gif";
             mkView 2 "red cap" "A red cap" 5 0 "cap-thumbnail.gif"])
  /\ ProductController.searchProduct Sample.binary None None None (Some "off")
       "CAP,blue" Sample.catalog
     = Respond 200
         (Rows
            [mkView 1 "blue shirt" "A blue shirt" 10 0 "shirt-thumbnail.gif"])
  /\ ProductController.searchProduct Sample.binary None None None (Some "off")
       ", ," Sample.catalog
     = Respond 200
         (Rows
            [mkView 1 "blue shirt" "A blue shirt" 10 0 "shirt-thumbnail.gif";
             mkView 2 "red cap" "A red cap" 5 0 "cap-thumbnail.gif"]).
Proof.
  split; [reflexivity|]. split; [|split].
  - exact (proj1 (searchProduct_by_inclusion Sample.lower None None None
                    (Some "off") "CAP,blue" Sample.catalog eq_refl)).
  - exact (proj1 (searchProduct_by_inclusion Sample.binary None None None
                    (Some "off") "CAP,blue" Sample.catalog eq_refl)).
  - exact (proj1 (searchProduct_by_inclusion Sample.binary None None None
                    (Some "off") ", ," Sample.catalog eq_refl)).
Defined.

(** ** Accounts *)

Lemma findOne_email_iff (e : string) (t : Customer.table) :
  Customer.findOne e t = None
  <-> ~ In e (map Customer.email (Customer.rows t)).
Proof.
  unfold Customer.findOne. split.
  - intros H Hin. apply in_map_iff in Hin as (c & <- & Hc).
    pose proof (find_none _ _ H c Hc) as Hn. simpl in Hn.
    now rewrite String.eqb_refl in Hn.
  - intros H. destruct (find _ (Customer.rows t)) as [c|] eqn:E; [|reflexivity].
    apply find_some in E as [Hc He]. apply String.eqb_eq in He.
    destruct H. rewrite <- He. now apply in_map.
Qed.

(** C8: when a row of the customer table has the email, [create] answers
    409 and leaves the database as it was, so no second row with that email
    is written.  When no row has it, [create] adds exactly one customer row,
    with the name and the email of the request and a password column that
    holds the digest of the password (not the password itself, whenever the
    digest differs from it), and answers 201 with the profile of that row
    and a bearer token that carries its customer id and expires in 24h. *)
Theorem create_conflict_or_account (sc : Schema) (bcrypt : Bcrypt)
    (name email password : string) (db : DB) :
  let r := CustomerController.create sc bcrypt name email password db in
  let emails d := map Customer.email (Customer.rows (customer d)) in
  (In email (emails db) ->
   r = (db,
        Respond 409
          (Error 409 ("User with email " ++ email ++ " already exist")%string))
   /\ count_occ string_dec (emails (fst r)) email
      = count_occ string_dec (emails db) email)
  /\ (~ In email (emails db) ->
      exists c pf,
        Customer.rows (customer (fst r)) = Customer.rows (customer db) ++ [c]
        /\ count_occ string_dec (emails (fst r)) email = 1%nat
        /\ Customer.customer_id c = Customer.next_id (customer db)
        /\ Customer.name c = name
        /\ Customer.email c = email
        /\ Customer.password c = hashSync bcrypt password
        /\ (hashSync bcrypt password <> password ->
            Customer.password c <> password)
        /\ snd r
           = Respond 201
               (Account pf (mkToken (Customer.customer_id c) "24h") "24h")
        /\ pf_customer_id pf = Customer.customer_id c
        /\ pf_name pf = name
        /\ pf_email pf = email).
Proof.
  cbv zeta. unfold CustomerController.create, Customer.findOrCreate. split.
  - intros Hin.
    destruct (Customer.findOne email (customer db)) as [c|] eqn:E.
    + simpl. now rewrite with_customer_same.
    + apply findOne_email_iff in E. now destruct E.
  - intros Hout. pose proof (proj2 (findOne_email_iff _ _) Hout) as E.
    rewrite E. simpl. do 2 eexists. split; [reflexivity|]. split.
    + rewrite map_app, count_occ_app; simpl.
      rewrite (proj1 (count_occ_not_In string_dec _ _) Hout).
      now destruct (string_dec email email).
    + now repeat split.
Qed.

(** C9, as stated, fails: a wrong password for a registered email is
    answered 401 and an email that is not registered 404, so the two
    answers differ. *)
Lemma login_tells_unknown_email :
  let wrong :=
    CustomerController.login Sample.bcrypt "ann@shop.io" "guess" Sample.members in
  let unknown :=
    CustomerController.login Sample.bcrypt "bob@shop.io" "guess" Sample.members in
  wrong = Respond 401 (Message "Incorrect password")
  /\ unknown = Respond 404 (Error 404 "User does not exist")
  /\ wrong <> unknown.
Proof. cbv zeta. repeat split. discriminate. Qed.

(** C9, amended: [login] answers 404 with the message 'User does not
    exist' when no customer has the email, 401 with the message 'Incorrect
    password' when one has and the password does not match its digest, and
    200 with an account otherwise; the two failures differ in status and
    message. *)
Theorem login_outcomes (bcrypt : Bcrypt) (email password : string) (db : DB) :
  let out := CustomerController.login bcrypt email password db in
  match Customer.findOne email (customer db) with
  | None => out = Respond 404 (Error 404 "User does not exist")
  | Some c =>
      if compareSync bcrypt password (Customer.password c)
      then
        exists pf,
          out
          = Respond 200
              (Account pf (mkToken (Customer.customer_id c) "24h") "24h")
          /\ pf_customer_id pf = Customer.customer_id c
          /\ pf_email pf = Customer.email c
      else out = Respond 401 (Message "Incorrect password")
  end.
Proof.
  cbv zeta. unfold CustomerController.login.
  destruct (Customer.findOne email (customer db)) as [c|]; [|reflexivity].
  destruct (compareSync bcrypt password (Customer.password c)); simpl;
    [|reflexivity].
  eexists. repeat split.
Qed.

(** ** Reviews *)

(** C10 does not hold of the code: [postProductReview] never reads the
    caller's identity and records every review under customer 1.  On the
    sample catalog a first review of product 1 is stored with customer_id 1
    whoever posts it, and the next review of that product, whoever posts
    it, is answered 409. *)
Theorem postProductReview_is_customer_1 (now1 now2 : Z) (review1 review2 : string)
    (rating1 rating2 : Z) :
  let first :=
    ProductController.postProductReview now1 1 review1 rating1 Sample.catalog in
  snd first = Respond 201 (Created true)
  /\ Review.rows (reviews (fst first)) = [Review.mk 1 1 1 review1 rating1 now1]
  /\ snd (ProductController.postProductReview now2 1 review2 rating2 (fst first))
     = Respond 409 (Text "You have already reviewed this product.").
Proof. cbv zeta. repeat split. Qed.

(** * Further properties of the handlers *)

(** ** The cart as [getCart] shows it *)

Section Items.

Import ShoppingCartController.

Variables (c : string) (ps : list Product.row).

Lemma items_shown (l : list ShoppingCart.row) (il : list CartItem) :
  items c ps l = Some il -> Forall2 (shown c ps) l il.
Proof.
  revert il. induction l as [|r l IH]; simpl; intros il H.
  - injection H as <-. constructor.
  - destruct (Product.findByPk (ShoppingCart.product_id r) ps) as [p|] eqn:E;
      [|discriminate].
    destruct (items c ps l) as [il0|]; [|discriminate].
    injection H as <-. constructor; [|now apply IH].
    exists p. now split.
Qed.

Lemma items_none (l : list ShoppingCart.row) :
  items c ps l = None
  <-> exists r,
        In r l /\ Product.findByPk (ShoppingCart.product_id r) ps = None.
Proof.
  induction l as [|r l IH]; simpl.
  - split; [discriminate|intros (r & [] & _)].
  - destruct (Product.findByPk (ShoppingCart.product_id r) ps) as [p|] eqn:E.
    + destruct (items c ps l) as [il|].
      * split; [discriminate|].
        intros (x & [<-|Hx] & Hn); [congruence|].
        assert (Some il = None) as H by (apply IH; now exists x).
        discriminate H.
      * split; [|reflexivity]. intros _.
        destruct (proj1 IH eq_refl) as (x & Hx & Hn).
        exists x. split; [now right|exact Hn].
    + split; [|reflexivity]. intros _. exists r. split; [now left|exact E].
Qed.

Lemma items_without (id : Z) (l : list ShoppingCart.row) (il : list CartItem) :
  items c ps l = Some il ->
  items c ps (filter (fun r => negb (ShoppingCart.item_id r =? id)) l)
  = Some (filter (fun i => negb (ci_item_id i =? id)) il).
Proof.
  revert il. induction l as [|r l IH]; simpl; intros il H.
  - now injection H as <-.
  - destruct (Product.findByPk (ShoppingCart.product_id r) ps) as [p|] eqn:E;
      [|discriminate].
    destruct (items c ps l) as [il0|]; [|discriminate].
    injection H as <-. simpl.
    destruct (negb (ShoppingCart.item_id r =? id)); simpl.
    + now rewrite E, (IH il0 eq_refl).
    + now apply IH.
Qed.

End Items.

Lemma Forall2_In_left {A B : Type} (R : A -> B -> Prop) (l : list A)
    (l' : list B) (x : A) :
  Forall2 R l l' -> In x l -> exists y, In y l' /\ R x y.
Proof.
  induction 1 as [|a b l l' Hab _ IH]; intros Hx; [destruct Hx|].
  destruct Hx as [<-|Hx].
  - exists b. split; [now left|exact Hab].
  - destruct (IH Hx) as (y & Hy & Hr). exists y. split; [now right|exact Hr].
Qed.

Lemma Forall2_In_right {A B : Type} (R : A -> B -> Prop) (l : list A)
    (l' : list B) (y : B) :
  Forall2 R l l' -> In y l' -> exists x, In x l /\ R x y.
Proof.
  induction 1 as [|a b l l' Hab _ IH]; intros Hy; [destruct Hy|].
  destruct Hy as [<-|Hy].
  - exists a. split; [now left|exact Hab].
  - destruct (IH Hy) as (x & Hx & Hr). exists x. split; [now right|exact Hr].
Qed.

(** X1: with a token that carries a customer id, [getCart] never answers
    404: it passes an error on exactly when a line of the cart has no
    product, and answers 200 otherwise, with one element per line of the
    cart, each under the cart id of the request and with
    subtotal = quantity * price. *)
Theorem getCart_answer (customerId : option Z) (cart_id : string) (db : DB) :
  Js.truthy customerId = true ->
  let out := ShoppingCartController.getCart customerId cart_id db in
  let cart := ShoppingCart.findAll cart_id (shopping_cart db) in
  (out = Next
   <-> exists r,
         In r cart
         /\ Product.findByPk (ShoppingCart.product_id r) (product db) = None)
  /\ (out = Next \/ exists l, out = Respond 200 (Items l))
  /\ (forall l,
        out = Respond 200 (Items l) ->
        List.length l = List.length cart
        /\ forall i,
             In i l ->
             ci_cart_id i = cart_id
             /\ ci_subtotal i = ci_quantity i * ci_price i
             /\ exists r,
                  In r cart
                  /\ ShoppingCart.item_id r = ci_item_id i
                  /\ ShoppingCart.quantity r = ci_quantity i).
Proof.
  intros Ht out cart. subst out. unfold ShoppingCartController.getCart.
  rewrite Ht. fold cart.
  pose proof (items_none cart_id (product db) cart) as Hnone.
  pose proof (items_shown cart_id (product db) cart) as Hshown.
  destruct (ShoppingCartController.items cart_id (product db) cart) as [il|].
  - split; [|split].
    + split; [discriminate|]. intros H. apply Hnone in H. discriminate H.
    + right. now exists il.
    + intros l H. injection H as <-.
      specialize (Hshown il eq_refl). split.
      * symmetry. eapply Forall2_length, Hshown.
      * intros i Hi.
        destruct (Forall2_In_right _ _ _ _ Hshown Hi) as (r & Hr & p & _ & ->).
        repeat split. exists r. now repeat split.
  - split; [|split].
    + split; [intros _; now apply Hnone|reflexivity].
    + now left.
    + discriminate.
Qed.

Lemma getCart_answer_witness :
  Js.truthy (Some 7) = true
  /\ (ShoppingCartController.getCart (Some 7) "abc123" Sample.checkout = Next
      \/ exists l,
           ShoppingCartController.getCart (Some 7) "abc123" Sample.checkout
           = Respond 200 (Items l)).
Proof.
  split; [reflexivity|].
  exact (proj1 (proj2 (getCart_answer (Some 7) "abc123" Sample.checkout eq_refl))).
Defined.

Lemma filter_comm {A : Type} (f g : A -> bool) (l : list A) :
  filter f (filter g l) = filter g (filter f l).
Proof.
  induction l as [|x l IH]; simpl; [reflexivity|].
  destruct (f x) eqn:Ef, (g x) eqn:Eg; simpl; rewrite ?Ef, ?Eg, IH; reflexivity.
Qed.

Lemma filter_none {A : Type} (f : A -> bool) (l : list A) :
  filter f (filter (fun x => negb (f x)) l) = [].
Proof.
  induction l as [|x l IH]; simpl; [reflexivity|].
  destruct (f x) eqn:E; simpl; [exact IH|]. now rewrite E.
Qed.

Lemma filter_apart {A : Type} (f g : A -> bool) (l : list A) :
  (forall x, g x = true -> f x = false) ->
  filter g (filter (fun x => negb (f x)) l) = filter g l.
Proof.
  intros H. induction l as [|x l IH]; simpl; [reflexivity|].
  destruct (f x) eqn:E; simpl.
  - destruct (g x) eqn:Eg; [|exact IH]. rewrite (H x Eg) in E. discriminate E.
  - now rewrite IH.
Qed.

Lemma getCart_items (customerId : option Z) (cart_id : string) (db : DB)
    (l : list CartItem) :
  ShoppingCartController.getCart customerId cart_id db = Respond 200 (Items l)
  <-> Js.truthy customerId = true
      /\ ShoppingCartController.items cart_id (product db)
           (ShoppingCart.findAll cart_id (shopping_cart db)) = Some l.
Proof.
  unfold ShoppingCartController.getCart.
  destruct (Js.truthy customerId).
  - destruct (ShoppingCartController.items _ _ _) as [il|].
    + split; [intros H; injection H as <-; now split|].
      intros [_ H]. now injection H as <-.
    + split; [discriminate|]. intros [_ H]. discriminate H.
  - split; [discriminate|]. intros [H _]. discriminate H.
Qed.

(** X2: the line an [addItemToCart] call writes is shown by [getCart]
    under the cart id without its first ten characters: when the product
    exists and that cart could be shown before the call, it can be shown
    after it, and holds an element for the product with the attributes and
    the quantity of the request and the subtotal quantity * price. *)
Theorem addItemToCart_then_getCart (sc : Schema) (stamp customerId : option Z)
    (cart_id : string) (product_id : Z) (attributes : string) (quantity : Z)
    (db : DB) (p : Product.row) (l : list CartItem) :
  Js.truthy customerId = true ->
  Product.findByPk product_id (product db) = Some p ->
  ShoppingCartController.getCart customerId (Js.substring 10 cart_id) db
  = Respond 200 (Items l) ->
  exists l' i,
    ShoppingCartController.getCart customerId (Js.substring 10 cart_id)
      (fst (ShoppingCartController.addItemToCart sc stamp customerId cart_id
              product_id attributes quantity db))
    = Respond 200 (Items l')
    /\ In i l'
    /\ ci_cart_id i = Js.substring 10 cart_id
    /\ ci_product_id i = product_id
    /\ ci_attributes i = attributes
    /\ ci_quantity i = quantity
    /\ ci_name i = Product.name p
    /\ ci_subtotal i = quantity * Product.price p.
Proof.
  intros Ht Hp Hget. apply getCart_items in Hget as [_ Hl].
  rewrite (addItemToCart_unfold _ _ _ _ _ _ _ _ Ht). cbv zeta. simpl fst.
  set (key := Js.substring 10 cart_id) in *.
  set (t' := fst (ShoppingCart.upsert (cart_unique sc) stamp key product_id
                    attributes quantity (shopping_cart db))).
  destruct (upsert_rows key product_id attributes quantity (cart_unique sc)
              stamp (shopping_cart db)) as [(x & Hx & Hw) Hall].
  fold t' in Hx, Hall.
  destruct (ShoppingCartController.items key (product db)
              (ShoppingCart.findAll key t')) as [l'|] eqn:E.
  - pose proof (items_shown _ _ _ _ E) as Hs.
    destruct Hw as (Hc & Hpid & Ha & Hq).
    assert (In x (ShoppingCart.findAll key t')) as Hin.
    { apply filter_In. split; [exact Hx|]. rewrite Hc. apply String.eqb_refl. }
    destruct (Forall2_In_left _ _ _ _ Hs Hin) as (i & Hi & p0 & Hp0 & ->).
    rewrite Hpid, Hp in Hp0. injection Hp0 as <-.
    exists l', (item_of key x p). split.
    + apply getCart_items. split; [exact Ht|exact E].
    + simpl. now rewrite Hq, Ha, Hpid.
  - apply items_none in E as (r & Hr & Hn).
    apply filter_In in Hr as [Hr Hk].
    destruct (Hall r Hr) as [Hold|(_ & Hpid & _)].
    + assert (ShoppingCartController.items key (product db)
                (ShoppingCart.findAll key (shopping_cart db)) = None) as E'.
      { apply items_none. exists r. split; [|exact Hn].
        apply filter_In. now split. }
      rewrite E' in Hl. discriminate Hl.
    + rewrite Hpid, Hp in Hn. discriminate Hn.
Qed.

Lemma addItemToCart_then_getCart_witness :
  Js.truthy (Some 7) = true
  /\ Product.findByPk 1 (product Sample.catalog) = Some Sample.shirt
  /\ ShoppingCartController.getCart (Some 7) "abcdef" Sample.catalog
     = Respond 200 (Items [])
  /\ exists l' i,
       ShoppingCartController.getCart (Some 7) "abcdef"
         (fst (ShoppingCartController.addItemToCart Sample.plain None (Some 7)
                 "0123456789abcdef" 1 "L" 2 Sample.catalog))
       = Respond 200 (Items l')
       /\ In i l'
       /\ ci_cart_id i = "abcdef"
       /\ ci_product_id i = 1
       /\ ci_attributes i = "L"
       /\ ci_quantity i = 2
       /\ ci_name i = "blue shirt"
       /\ ci_subtotal i = 2 * 10.
Proof.
  repeat (split; [reflexivity|]).
  exact (addItemToCart_then_getCart Sample.plain None (Some 7)
           "0123456789abcdef" 1 "L" 2 Sample.catalog Sample.shirt []
           eq_refl eq_refl eq_refl).
Defined.

Lemma emptyCart_db (customerId : option Z) (cart_id : string) (db : DB) :
  fst (ShoppingCartController.emptyCart customerId cart_id db)
  = if Js.truthy customerId
    then
      with_shopping_cart
        (fst (ShoppingCart.destroy
                (fun r => String.eqb (ShoppingCart.cart_id r) cart_id)
                (shopping_cart db)))
        db
    else db.
Proof.
  unfold ShoppingCartController.emptyCart, ShoppingCart.destroy.
  destruct (Js.truthy customerId); simpl; [|reflexivity].
  now destruct (negb _).
Qed.

Lemma removeItemFromCart_db (customerId : option Z) (item_id : Z) (db : DB) :
  fst (ShoppingCartController.removeItemFromCart customerId item_id db)
  = if Js.truthy customerId
    then
      with_shopping_cart
        (fst (ShoppingCart.destroy (fun r => ShoppingCart.item_id r =? item_id)
                (shopping_cart db)))
        db
    else db.
Proof.
  unfold ShoppingCartController.removeItemFromCart, ShoppingCart.destroy.
  destruct (Js.truthy customerId); simpl; [|reflexivity].
  now destruct (negb _).
Qed.

(** X3: after an [emptyCart] call with a token that carries a customer id,
    [getCart] shows the cart empty, and shows every other cart as before. *)
Theorem emptyCart_then_getCart (customerId : option Z) (cart_id : string)
    (db : DB) :
  Js.truthy customerId = true ->
  let db1 := fst (ShoppingCartController.emptyCart customerId cart_id db) in
  ShoppingCartController.getCart customerId cart_id db1 = Respond 200 (Items [])
  /\ forall c other,
       String.eqb other cart_id = false ->
       ShoppingCartController.getCart c other db1
       = ShoppingCartController.getCart c other db.
Proof.
  intros Ht db1. subst db1. rewrite emptyCart_db, Ht.
  unfold ShoppingCartController.getCart, ShoppingCart.findAll; simpl.
  rewrite Ht. split.
  - now rewrite (filter_none (fun r => String.eqb (ShoppingCart.cart_id r) cart_id)).
  - intros c other Hne.
    rewrite (filter_apart
               (fun r => String.eqb (ShoppingCart.cart_id r) cart_id)
               (fun r => String.eqb (ShoppingCart.cart_id r) other));
      [reflexivity|].
    intros x Hx. apply String.eqb_eq in Hx. now rewrite Hx.
Qed.

Lemma emptyCart_then_getCart_witness :
  Js.truthy (Some 7) = true
  /\ ShoppingCartController.getCart (Some 7) "abc123"
       (fst (ShoppingCartController.emptyCart (Some 7) "abc123" Sample.checkout))
     = Respond 200 (Items []).
Proof.
  split; [reflexivity|].
  exact (proj1 (emptyCart_then_getCart (Some 7) "abc123" Sample.checkout eq_refl)).
Defined.

(** X4: when [getCart] shows a cart, then after a [removeItemFromCart] call
    with the same token it shows the same elements in the same order,
    less those with the item id removed. *)
Theorem removeItemFromCart_then_getCart (customerId : option Z)
    (cart_id : string) (item_id : Z) (db : DB) (l : list CartItem) :
  ShoppingCartController.getCart customerId cart_id db = Respond 200 (Items l) ->
  ShoppingCartController.getCart customerId cart_id
    (fst (ShoppingCartController.removeItemFromCart customerId item_id db))
  = Respond 200 (Items (filter (fun i => negb (ci_item_id i =? item_id)) l)).
Proof.
  intros H. apply getCart_items in H as [Ht Hl].
  apply getCart_items. split; [exact Ht|].
  rewrite removeItemFromCart_db, Ht.
  unfold ShoppingCart.findAll; simpl. rewrite filter_comm.
  now apply items_without.
Qed.

Lemma removeItemFromCart_then_getCart_witness :
  ShoppingCartController.getCart (Some 7) "abc123" Sample.checkout
  = Respond 200
      (Items
         [mkCartItem 1 "abc123" "blue shirt" "L" 1 "shirt.gif" 10 0 2 20;
          mkCartItem 2 "abc123" "red cap" "Red" 2 "cap.gif" 5 0 1 5])
  /\ ShoppingCartController.getCart (Some 7) "abc123"
       (fst (ShoppingCartController.removeItemFromCart (Some 7) 1
               Sample.checkout))
     = Respond 200
         (Items [mkCartItem 2 "abc123" "red cap" "Red" 2 "cap.gif" 5 0 1 5]).
Proof.
  split; [reflexivity|].
  exact (removeItemFromCart_then_getCart (Some 7) "abc123" 1 Sample.checkout _
           eq_refl).
Defined.

(** ** Updating a line *)

Section UpdateQuantity.

Import ShoppingCart.

Variables (id q : Z).

Lemma upd_item_id (r : row) : item_id (set_quantity id q r) = item_id r.
Proof. unfold set_quantity. now destruct (item_id r =? id). Qed.

Lemma find_upd (l : list row) :
  find (fun r => item_id r =? id) (map (set_quantity id q) l)
  = option_map (set_quantity id q) (find (fun r => item_id r =? id) l).
Proof.
  induction l as [|r l IH]; simpl; [reflexivity|].
  rewrite upd_item_id. now destruct (item_id r =? id).
Qed.

Lemma map_upd_absent (l : list row) :
  find (fun r => item_id r =? id) l = None -> map (set_quantity id q) l = l.
Proof.
  induction l as [|r l IH]; simpl; [reflexivity|].
  unfold set_quantity at 1. destruct (item_id r =? id); [discriminate|].
  intros H. now rewrite (IH H).
Qed.

Lemma map_upd_ids (l : list row) :
  map item_id (map (set_quantity id q) l) = map item_id l.
Proof.
  rewrite map_map. apply map_ext. exact upd_item_id.
Qed.

Lemma map_upd_others (l : list row) (x : row) :
  In x l -> item_id x <> id -> In x (map (set_quantity id q) l).
Proof.
  intros Hx Hn. apply in_map_iff. exists x. split; [|exact Hx].
  unfold set_quantity. apply Z.eqb_neq in Hn. now rewrite Hn.
Qed.

End UpdateQuantity.

(** X5: [updateCartItem] always answers 200.  For an item id that no line
    has, the payload is null and nothing is changed.  Otherwise the payload
    is that line with the quantity of the request, whatever that quantity is
    (the stored quantity when the token carries no customer id).  The item
    ids of the table and every line with another item id are kept. *)
Theorem updateCartItem_answer (customerId : option Z) (item_id quantity : Z)
    (db : DB) :
  let r :=
    ShoppingCartController.updateCartItem customerId item_id quantity db in
  let cart d := ShoppingCart.rows (shopping_cart d) in
  match ShoppingCart.findByPk item_id (shopping_cart db) with
  | None => r = (db, Sent 200 None)
  | Some r0 =>
      snd r
      = Sent 200
          (Some
             (if Js.truthy customerId
              then
                ShoppingCart.mk (ShoppingCart.item_id r0)
                  (ShoppingCart.cart_id r0) (ShoppingCart.product_id r0)
                  (ShoppingCart.attributes r0) quantity
                  (ShoppingCart.added_on r0)
              else r0))
  end
  /\ map ShoppingCart.item_id (cart (fst r)) = map ShoppingCart.item_id (cart db)
  /\ (forall x,
        In x (cart db) -> ShoppingCart.item_id x <> item_id ->
        In x (cart (fst r))).
Proof.
  cbv zeta. unfold ShoppingCartController.updateCartItem.
  destruct (Js.truthy customerId); simpl.
  - unfold ShoppingCart.findByPk, ShoppingCart.update_quantity; simpl.
    rewrite find_upd, map_upd_ids. split; [|split].
    + destruct (find _ (ShoppingCart.rows (shopping_cart db))) as [r0|] eqn:E;
        simpl.
      * apply find_some in E as [_ E]. unfold ShoppingCart.set_quantity.
        now rewrite E.
      * rewrite (map_upd_absent _ _ _ E).
        destruct db as [[rows next] ? ? ? ? ? ? ?]. reflexivity.
    + reflexivity.
    + intros x Hx Hn. now apply map_upd_others.
  - split; [|split].
    + now destruct (ShoppingCart.findByPk item_id (shopping_cart db)).
    + reflexivity.
    + now intros x Hx _.
Qed.

(** ** The id [createOrder] answers with *)

(** X6: [createOrder] answers with the number of order rows, which is the
    id of the order it has just inserted exactly when the auto-increment
    counter stood at one more than the number of rows.  That is so when the
    order ids in use are 1, ..., n with n + 1 the next one, a state that
    [createOrder] keeps. *)
Theorem createOrder_answers_row_count (sc : Schema) (customerId : option Z)
    (cart_id : string) (shipping_id tax_id : Z) (db : DB) :
  let r :=
    ShoppingCartController.createOrder sc customerId cart_id shipping_id
      tax_id db in
  exists o,
    Order.rows (orders (fst r)) = Order.rows (orders db) ++ [o]
    /\ (snd r = Respond 201 (OrderId (Order.order_id o))
        <-> Order.next_id (orders db) = Order.count (orders db) + 1)
    /\ (orders_dense db ->
        orders_dense (fst r)
        /\ snd r = Respond 201 (OrderId (Order.order_id o))).
Proof.
  cbv zeta.
  unfold ShoppingCartController.createOrder, Order.upsert, orders_dense,
    Order.count; simpl.
  eexists. split; [reflexivity|]. simpl. rewrite length_app; simpl.
  split; [split|].
  - intros H. injection H as H. lia.
  - intros H. do 2 f_equal. lia.
  - intros [Hids Hnext]. split; [split|].
    + rewrite map_app, Hids, Nat.add_1_r, seq_S, map_app. simpl.
      do 2 f_equal. lia.
    + lia.
    + do 2 f_equal. lia.
Qed.

(** ** Pages of products *)

Lemma In_firstn {A : Type} (n : nat) (l : list A) (x : A) :
  In x (firstn n l) -> In x l.
Proof.
  revert l. induction n as [|n IH]; intros [|y l]; simpl; try easy.
  intros [->|H]; [now left|right; now apply IH].
Qed.

Lemma In_skipn {A : Type} (n : nat) (l : list A) (x : A) :
  In x (skipn n l) -> In x l.
Proof.
  revert l. induction n as [|n IH]; intros [|y l]; simpl; try easy.
  intros H. right. now apply IH.
Qed.

Lemma slice_window {A : Type} (o n : Z) (l : list A) :
  0 <= o -> 0 <= n ->
  Sql.slice (Js.Num o) (Js.Num n) l
  = Some (firstn (Z.to_nat n) (skipn (Z.to_nat o) l)).
Proof.
  intros Ho Hn. unfold Sql.slice.
  now rewrite (proj2 (Z.leb_le 0 o) Ho), (proj2 (Z.leb_le 0 n) Hn).
Qed.

Lemma slice_refused {A : Type} (o n : Z) (l : list A) :
  n < 0 -> Sql.slice (Js.Num o) (Js.Num n) l = None.
Proof.
  intros Hn. unfold Sql.slice.
  now rewrite (proj2 (Z.leb_gt 0 n) Hn), andb_false_r.
Qed.

Lemma length_substring0 (n : nat) (s : string) :
  String.length (Js.substring0 n s) = Nat.min n (String.length s).
Proof.
  revert s. induction n as [|n IH]; intros [|ch s]; simpl; try reflexivity.
  now rewrite IH.
Qed.

Lemma prefix_substring0 (n : nat) (s : string) :
  String.prefix (Js.substring0 n s) s = true.
Proof.
  revert s. induction n as [|n IH]; intros [|ch s]; simpl; try reflexivity.
  destruct (ascii_dec ch ch) as [_|H]; [apply IH|now destruct H].
Qed.

(** X7: for a page and a limit within the range where the arithmetic of
    the handler is exact, [getAllProducts] passes an error on for a negative limit, and
    otherwise answers 200 with at most limit rows, the i-th of which is the
    product at position (page - 1) * limit + i of the product table (a page
    below 1 counting as 1, a missing limit as 20): consecutive pages follow
    one another without gap or overlap, and a page past the end is empty.
    The field currentPage of the answer holds the offset, not the page. *)
Theorem getAllProducts_page
    (page limit description_length : ProductController.param) (db : DB) :
  exact_page page limit ->
  let p := match page with Some z => Z.max 1 z | None => 1 end in
  let n := match limit with Some z => z | None => 20 end in
  let count := Z.of_nat (List.length (product db)) in
  let out :=
    ProductController.getAllProducts page limit description_length db in
  if n <? 0
  then out = Next
  else
    exists rows,
      out
      = Respond 200
          (Page
             (mkMeta ((p - 1) * n) n (ProductController.ceil_div count n) count)
             rows)
      /\ (List.length rows <= Z.to_nat n)%nat
      /\ forall i,
           (i < Z.to_nat n)%nat ->
           nth_error rows i
           = option_map
               (ProductController.view
                  (ProductController.default_description_length
                     description_length))
               (nth_error (product db) (Z.to_nat ((p - 1) * n) + i)).
Proof.
  intros _. cbv zeta. unfold ProductController.getAllProducts.
  rewrite query_map_offset.
  set (p := match page with Some z => Z.max 1 z | None => 1 end).
  set (n := match limit with Some z => z | None => 20 end).
  assert (1 <= p) as Hp by (subst p; destruct page; lia).
  destruct (Z.ltb_spec n 0) as [Hn|Hn].
  - now rewrite slice_refused.
  - rewrite slice_window by nia.
    eexists. split; [reflexivity|]. split.
    + rewrite length_map. apply firstn_le_length.
    + intros i Hi. rewrite nth_error_map, nth_error_firstn, nth_error_skipn.
      now rewrite (proj2 (Nat.ltb_lt i (Z.to_nat n)) Hi).
Qed.

Lemma getAllProducts_page_witness :
  exact_page (Some 2) (Some 1)
  /\ exists rows,
       ProductController.getAllProducts (Some 2) (Some 1) None Sample.catalog
       = Respond 200 (Page (mkMeta 1 1 (Some 2) 2) rows)
       /\ nth_error rows 0
          = Some (mkView 2 "red cap" "A red cap" 5 0 "cap-thumbnail.gif").
Proof.
  assert (exact_page (Some 2) (Some 1)) as H
    by (unfold exact_page, Js.safe; simpl; lia).
  split; [exact H|].
  destruct (getAllProducts_page (Some 2) (Some 1) None Sample.catalog H)
    as (rows & Hout & _ & Hnth).
  exists rows. split; [exact Hout|].
  exact (Hnth 0%nat ltac:(simpl; lia)).
Defined.

(** X8: every row [getAllProducts] answers with is a product of the table
    whose description is cut to its first description_length characters,
    200 when the parameter is missing. *)
Theorem getAllProducts_descriptions
    (page limit description_length : ProductController.param) (db : DB)
    (meta : PaginationMeta) (rows : list ProductView) (v : ProductView) :
  ProductController.getAllProducts page limit description_length db
  = Respond 200 (Page meta rows) ->
  In v rows ->
  let k :=
    Z.to_nat (match description_length with Some z => z | None => 200 end) in
  exists p,
    In p (product db)
    /\ pv_product_id v = Product.product_id p
    /\ pv_name v = Product.name p
    /\ pv_price v = Product.price p
    /\ pv_description v = Js.substring0 k (Product.description p)
    /\ String.prefix (pv_description v) (Product.description p) = true
    /\ (String.length (pv_description v) <= k)%nat.
Proof.
  intros H Hv k. unfold ProductController.getAllProducts in H.
  destruct (ProductController.query_map page limit) as [offset n].
  unfold Sql.slice in H.
  destruct offset as [|o]; [discriminate|]. destruct n as [|n]; [discriminate|].
  destruct ((0 <=? o) && (0 <=? n)); [|discriminate].
  injection H as _ <-.
  apply in_map_iff in Hv as (p & <- & Hp).
  apply In_firstn, In_skipn in Hp.
  exists p. split; [exact Hp|].
  assert (pv_description
            (ProductController.view
               (ProductController.default_description_length
                  description_length) p)
          = Js.substring0 k (Product.description p)) as E.
  { subst k. now destruct description_length. }
  rewrite E. repeat split.
  - apply prefix_substring0.
  - rewrite length_substring0. apply Nat.le_min_l.
Qed.

Lemma getAllProducts_descriptions_witness :
  exists p,
    In p (product Sample.catalog)
    /\ pv_product_id (mkView 2 "red cap" "A red" 5 0 "cap-thumbnail.gif")
       = Product.product_id p
    /\ pv_name (mkView 2 "red cap" "A red" 5 0 "cap-thumbnail.gif")
       = Product.name p
    /\ pv_price (mkView 2 "red cap" "A red" 5 0 "cap-thumbnail.gif")
       = Product.price p
    /\ pv_description (mkView 2 "red cap" "A red" 5 0 "cap-thumbnail.gif")
       = Js.substring0 5 (Product.description p)
    /\ String.prefix
         (pv_description (mkView 2 "red cap" "A red" 5 0 "cap-thumbnail.gif"))
         (Product.description p) = true
    /\ (String.length
          (pv_description (mkView 2 "red cap" "A red" 5 0 "cap-thumbnail.gif"))
        <= 5)%nat.
Proof.
  exact (getAllProducts_descriptions (Some 2) (Some 1) (Some 5) Sample.catalog
           (mkMeta 1 1 (Some 2) 2)
           [mkView 2 "red cap" "A red" 5 0 "cap-thumbnail.gif"]
           (mkView 2 "red cap" "A red" 5 0 "cap-thumbnail.gif")
           eq_refl (or_introl eq_refl)).
Defined.

(** X9: [getProductsByCategory] and [getProductsByDepartment] query with
    the offset and limit that [getAllProducts] would use exactly when page
    and limit are both given and the page is at least 1 (or the limit is
    0). *)
Theorem late_offset_right_iff (page limit : ProductController.param) :
  ProductController.query_map_late page limit
  = ProductController.query_map page limit
  <-> exists p n, page = Some p /\ limit = Some n /\ (1 <= p \/ n = 0).
Proof.
  rewrite query_map_offset.
  unfold ProductController.query_map_late, ProductController.offset_of,
    ProductController.default_limit, ProductController.absent,
    ProductController.Number.
  destruct page as [p|], limit as [n|]; cbn [Js.mul Js.sub]; split;
    try discriminate;
    try (intros (p0 & n0 & H1 & H2 & _); discriminate).
  - intros H. injection H as H. exists p, n. repeat split.
    destruct (Z.le_gt_cases 1 p) as [Hp|Hp]; [now left|right].
    rewrite Z.max_l in H by lia.
    assert ((p - 1) * n = 0) as H0 by (rewrite Z.mul_sub_distr_r; lia).
    apply Z.mul_eq_0 in H0 as [H0|H0]; [lia|exact H0].
  - intros (p0 & n0 & H1 & H2 & H). injection H1 as <-. injection H2 as <-.
    apply f_equal2; [|reflexivity]. apply f_equal.
    destruct H as [H| ->]; [rewrite Z.max_r by lia; ring|].
    now rewrite !Z.mul_0_r.
Qed.

(** X10: for a page that is at least 1 and a limit that is not negative
    (within the range where the arithmetic is exact),
    [getProductsByDepartment] answers 200 with one list per category of the
    department, for the categories at the positions (page - 1) * limit, ...
    of the department's categories, limit of them at most and in the order
    of the category table; each list is what that category holds.  The
    limit bounds the number of categories gathered, not the number of
    products. *)
Theorem getProductsByDepartment_gathers_categories (department_id p n : Z)
    (db : DB) :
  1 <= p -> 0 <= n ->
  exact_page (Some p) (Some n) ->
  let of_department :=
    filter (fun c => Category.department_id c =? department_id) (category db) in
  let on_page :=
    firstn (Z.to_nat n) (skipn (Z.to_nat ((p - 1) * n)) of_department) in
  ProductController.getProductsByDepartment department_id (Some p) (Some n) db
  = Respond 200
      (RowsNested
         (map
            (fun c => ProductController.in_category (Category.category_id c) db)
            on_page))
  /\ (List.length on_page <= Z.to_nat n)%nat
  /\ forall i,
       (i < Z.to_nat n)%nat ->
       nth_error on_page i
       = nth_error of_department (Z.to_nat ((p - 1) * n) + i).
Proof.
  intros Hp Hn _. cbv zeta.
  unfold ProductController.getProductsByDepartment.
  assert (ProductController.query_map_late (Some p) (Some n)
          = (Js.Num ((p - 1) * n), Js.Num n)) as ->.
  { unfold ProductController.query_map_late, ProductController.offset_of;
      simpl. do 2 f_equal. ring. }
  rewrite slice_window by nia. split; [|split].
  - now rewrite map_map.
  - apply firstn_le_length.
  - intros i Hi. rewrite nth_error_firstn, nth_error_skipn.
    now rewrite (proj2 (Nat.ltb_lt i (Z.to_nat n)) Hi).
Qed.

Lemma getProductsByDepartment_gathers_categories_witness :
  1 <= 1 /\ 0 <= 5
  /\ exact_page (Some 1) (Some 5)
  /\ ProductController.getProductsByDepartment 1 (Some 1) (Some 5)
       Sample.shelves
     = Respond 200
         (RowsNested
            [[Some (mkView 1 "blue shirt" "A blue shirt" 10 0
                      "shirt-thumbnail.gif")];
             [Some (mkView 2 "red cap" "A red cap" 5 0 "cap-thumbnail.gif")]]).
Proof.
  assert (exact_page (Some 1) (Some 5)) as H
    by (unfold exact_page, Js.safe; simpl; lia).
  split; [lia|]. split; [lia|]. split; [exact H|].
  exact (proj1 (getProductsByDepartment_gathers_categories 1 1 5
                  Sample.shelves ltac:(lia) ltac:(lia) H)).
Defined.

(** ** The terms of a query *)

Section Terms.

Import ProductController.

Lemma append_nil_r (s : string) : (s ++ EmptyString)%string = s.
Proof. induction s as [|ch s IH]; simpl; [reflexivity|now rewrite IH]. Qed.

Lemma split_from_word (w s cur : string) (in_sep : bool) :
  unbroken w = true ->
  split_from (w ++ s) cur in_sep
  = match w with
    | EmptyString => split_from s cur in_sep
    | String _ _ => split_from s (cur ++ w) false
    end.
Proof.
  revert cur in_sep. induction w as [|ch w IH]; intros cur in_sep H;
    [reflexivity|].
  unfold unbroken in H; simpl in H. apply andb_prop in H as [Hc Hw].
  apply negb_true_iff in Hc.
  simpl. rewrite Hc, (IH _ _ Hw).
  destruct w as [|ch' w]; [reflexivity|].
  f_equal. induction cur as [|x cur IHc]; simpl; [reflexivity|].
  now rewrite IHc.
Qed.

Lemma split_from_flag (s : string) :
  filter nonempty (split_from s EmptyString true)
  = filter nonempty (split_from s EmptyString false).
Proof.
  destruct s as [|ch s]; simpl; [reflexivity|].
  now destruct (is_sep ch).
Qed.

Lemma wordQueries_joined_from (ws : list string) (in_sep : bool) :
  forallb (fun w => nonempty w && unbroken w) ws = true ->
  filter nonempty (split_from (String.concat "," ws) EmptyString in_sep) = ws.
Proof.
  revert in_sep. induction ws as [|w ws IH]; intros in_sep H; [reflexivity|].
  simpl in H. apply andb_prop in H as [Hw Hws].
  apply andb_prop in Hw as [Hn Hu].
  destruct w as [|ch w]; [discriminate|].
  destruct ws as [|w' ws].
  - simpl String.concat.
    rewrite <- (append_nil_r (String ch w)) at 1.
    rewrite (split_from_word _ _ _ _ Hu). reflexivity.
  - change (String.concat "," (String ch w :: w' :: ws))
      with (String ch w ++ "," ++ String.concat "," (w' :: ws))%string.
    rewrite (split_from_word _ _ _ _ Hu).
    cbn [String.append split_from is_sep Ascii.eqb Bool.eqb orb andb].
    cbn [filter nonempty]. f_equal. now apply IH.
Qed.

Lemma wordQueries_sep (a b cur : string) (in_sep : bool) (sep : ascii) :
  is_sep sep = true ->
  (in_sep = true -> cur = EmptyString) ->
  filter nonempty (split_from (a ++ String sep b) cur in_sep)
  = filter nonempty (split_from a cur in_sep)
    ++ filter nonempty (split_from b EmptyString true).
Proof.
  intros Hs. revert cur in_sep.
  induction a as [|ch a IH]; intros cur in_sep Hcur; simpl.
  - rewrite Hs. destruct in_sep.
    + now rewrite (Hcur eq_refl).
    + simpl. now destruct (nonempty cur).
  - destruct (is_sep ch).
    + destruct in_sep; [now apply IH|].
      simpl. destruct (nonempty cur); simpl; f_equal; now apply IH.
    + apply IH. discriminate.
Qed.

End Terms.

(** X11: splitting undoes joining: the terms of a query made by joining
    non-empty words without blanks and commas with commas are those words,
    in their order. *)
Theorem wordQueries_joined (ws : list string) :
  forallb (fun w => ProductController.nonempty w && unbroken w) ws = true ->
  ProductController.wordQueries (String.concat "," ws) = ws.
Proof.
  intros H. unfold ProductController.wordQueries, ProductController.split.
  now apply wordQueries_joined_from.
Qed.

Lemma wordQueries_joined_witness :
  forallb (fun w => ProductController.nonempty w && unbroken w)
    ["red"; "cap"; "xl"] = true
  /\ ProductController.wordQueries "red,cap,xl" = ["red"; "cap"; "xl"].
Proof.
  split; [reflexivity|].
  exact (wordQueries_joined ["red"; "cap"; "xl"] eq_refl).
Defined.

Lemma wordQueries_blank (a b : string) :
  ProductController.wordQueries (a ++ " " ++ b)
  = ProductController.wordQueries a ++ ProductController.wordQueries b.
Proof.
  unfold ProductController.wordQueries, ProductController.split.
  change (a ++ " " ++ b)%string with (a ++ String " " b)%string.
  rewrite wordQueries_sep; [|reflexivity|discriminate].
  now rewrite split_from_flag.
Qed.

(** X12: with all_words 'off', a name is selected by the query "a b"
    exactly when it is selected by the query a or by the query b, provided a
    and b each have a term (a query without terms selects every name). *)
Theorem search_off_union (fold : ascii -> ascii) (a b name : string) :
  ProductController.wordQueries a <> [] ->
  ProductController.wordQueries b <> [] ->
  ProductController.search_where fold (Some "off") (a ++ " " ++ b) name
  = ProductController.search_where fold (Some "off") a name
    || ProductController.search_where fold (Some "off") b name.
Proof.
  intros Ha Hb.
  assert (forall conds : list (string -> bool),
            conds <> [] ->
            Sql.Op_or conds name = existsb (fun cond => cond name) conds)
    as Hor by (intros [|cond conds] H; [now destruct H|reflexivity]).
  assert (forall (g : string -> string -> bool) (ws : list string),
            ws <> [] -> map g ws <> [])
    as Hmap by (intros g [|w ws] H; [now destruct H|discriminate]).
  unfold ProductController.search_where. cbn [String.eqb Ascii.eqb Bool.eqb].
  cbv beta iota zeta. rewrite wordQueries_blank, map_app.
  rewrite !Hor; [apply existsb_app|now apply Hmap|now apply Hmap|].
  intros H. apply app_eq_nil in H as [H _]. revert H. now apply Hmap.
Qed.

Lemma search_off_union_witness :
  ProductController.wordQueries "red" <> []
  /\ ProductController.wordQueries "shirt" <> []
  /\ ProductController.search_where Sample.lower (Some "off") "red shirt"
       "Blue Shirt"
     = ProductController.search_where Sample.lower (Some "off") "red"
         "Blue Shirt"
       || ProductController.search_where Sample.lower (Some "off") "shirt"
            "Blue Shirt".
Proof.
  split; [discriminate|]. split; [discriminate|].
  exact (search_off_union Sample.lower "red" "shirt" "Blue Shirt"
           ltac:(discriminate) ltac:(discriminate)).
Defined.

(** ** The category of a product *)

(** X13: [getProductCategory] passes an error on when the product has no
    category row (it never answers 404).  When it answers a category, the
    product is among the rows that category holds, so that
    [getProductsByCategory] lists it; when it answers null, the category of
    the product's row does not exist. *)
Theorem getProductCategory_answer (product_id : Z) (db : DB) :
  match ProductController.getProductCategory product_id db with
  | Sent status (Some cv) =>
      status = 200
      /\ In
           (option_map (ProductController.view None)
              (Product.findByPk product_id (product db)))
           (ProductController.in_category (cv_category_id cv) db)
      /\ exists c,
           In c (category db)
           /\ Category.category_id c = cv_category_id cv
           /\ Category.department_id c = cv_department_id cv
           /\ Category.name c = cv_name cv
  | Sent status None =>
      status = 200
      /\ exists pc,
           In pc (product_category db)
           /\ ProductCategory.product_id pc = product_id
           /\ forall c,
                In c (category db) ->
                Category.category_id c <> ProductCategory.category_id pc
  | Other o =>
      o = Next
      /\ forall pc,
           In pc (product_category db) ->
           ProductCategory.product_id pc <> product_id
  end.
Proof.
  unfold ProductController.getProductCategory.
  destruct (find _ (product_category db)) as [pc|] eqn:E.
  - apply find_some in E as [Hpc Hp]. apply Z.eqb_eq in Hp.
    destruct (find _ (category db)) as [c|] eqn:Ec; simpl.
    + apply find_some in Ec as [Hc Hid]. apply Z.eqb_eq in Hid.
      split; [reflexivity|]. split.
      * unfold ProductController.in_category. apply in_map_iff.
        exists pc. split.
        -- unfold ProductController.joined. now rewrite Hp.
        -- apply filter_In. split; [exact Hpc|]. apply Z.eqb_eq. now rewrite Hid.
      * exists c. now repeat split.
    + split; [reflexivity|]. exists pc. repeat split; [exact Hpc|exact Hp|].
      intros c Hc Hid.
      pose proof (find_none _ _ Ec c Hc) as Hn. simpl in Hn.
      apply Z.eqb_neq in Hn. now apply Hn.
  - split; [reflexivity|]. intros pc Hpc Hp.
    pose proof (find_none _ _ E pc Hpc) as Hn. simpl in Hn.
    apply Z.eqb_neq in Hn. now apply Hn.
Qed.

(** ** One product *)

(** X14: every row [getAllProducts] lists can be fetched: [getProduct]
    answers 200 for its product id, echoing that id; and [getProduct]
    answers 404 exactly for the ids no product has. *)
Theorem getProduct_finds_listed
    (page limit description_length d : ProductController.param) (db : DB)
    (meta : PaginationMeta) (rows : list ProductView) (v : ProductView) :
  ProductController.getAllProducts page limit description_length db
  = Respond 200 (Page meta rows) ->
  In v rows ->
  (exists detail,
     ProductController.getProduct d (pv_product_id v) db = Sent 200 detail
     /\ pd_product_id detail = pv_product_id v)
  /\ forall id,
       (forall p, In p (product db) -> Product.product_id p <> id)
       <-> ProductController.getProduct d id db
           = Other
               (Respond 404
                  (Error 404
                     ("Product with id " ++ Js.string_of_Z id
                      ++ " does not exist")%string)).
Proof.
  intros H Hv. split.
  - unfold ProductController.getAllProducts in H.
    destruct (ProductController.query_map page limit) as [offset n].
    unfold Sql.slice in H.
    destruct offset as [|o]; [discriminate|].
    destruct n as [|n]; [discriminate|].
    destruct ((0 <=? o) && (0 <=? n)); [|discriminate].
    injection H as _ <-.
    apply in_map_iff in Hv as (p & <- & Hp).
    apply In_firstn, In_skipn in Hp.
    unfold ProductController.getProduct.
    destruct (Product.findByPk (pv_product_id _) (product db)) as [p0|] eqn:E.
    + eexists. split; reflexivity.
    + pose proof (find_none _ _ E p Hp) as Hn. simpl in Hn.
      now rewrite Z.eqb_refl in Hn.
  - intros id. unfold ProductController.getProduct, Product.findByPk.
    destruct (find _ (product db)) as [p0|] eqn:E.
    + split; [|discriminate]. intros Hall.
      apply find_some in E as [Hin Hid]. apply Z.eqb_eq in Hid.
      now destruct (Hall p0 Hin).
    + split; [reflexivity|]. intros _ p Hp Hid.
      pose proof (find_none _ _ E p Hp) as Hn. simpl in Hn.
      apply Z.eqb_neq in Hn. now apply Hn.
Qed.

Lemma getProduct_finds_listed_witness :
  exists detail,
    ProductController.getProduct None
      (pv_product_id (mkView 2 "red cap" "A red" 5 0 "cap-thumbnail.gif"))
      Sample.catalog
    = Sent 200 detail
    /\ pd_product_id detail
       = pv_product_id (mkView 2 "red cap" "A red" 5 0 "cap-thumbnail.gif").
Proof.
  exact (proj1 (getProduct_finds_listed (Some 2) (Some 1) (Some 5) None
                  Sample.catalog (mkMeta 1 1 (Some 2) 2)
                  [mkView 2 "red cap" "A red" 5 0 "cap-thumbnail.gif"]
                  (mkView 2 "red cap" "A red" 5 0 "cap-thumbnail.gif")
                  eq_refl (or_introl eq_refl))).
Defined.

(** ** Reviews as they are listed *)

Lemma findOne_none_count (p : Z) (db : DB) :
  Review.findOne p 1 (reviews db) = None -> reviews_of_1 p db = 0%nat.
Proof.
  unfold Review.findOne, reviews_of_1.
  induction (Review.rows (reviews db)) as [|r l IH]; simpl; [reflexivity|].
  destruct ((Review.product_id r =? p) && (Review.customer_id r =? 1));
    [discriminate|exact IH].
Qed.

(** X15: when the product exists and customer 1 has no review of it,
    [postProductReview] answers 201 and [getProductReviews] then lists one
    entry more, the last: the name of customer 1 (null when there is no
    customer 1), whoever posted the review. *)
Theorem postProductReview_then_getProductReviews (now product_id : Z)
    (review : string) (rating : Z) (db : DB) (p : Product.row) :
  Product.findByPk product_id (product db) = Some p ->
  Review.findOne product_id 1 (reviews db) = None ->
  let r := ProductController.postProductReview now product_id review rating db in
  snd r = Respond 201 (Created true)
  /\ exists before,
       ProductController.getProductReviews product_id db = Sent 200 before
       /\ ProductController.getProductReviews product_id (fst r)
          = Sent 200
              (before
               ++ [option_map Customer.name
                     (Customer.findByPk 1 (customer db))]).
Proof.
  intros Hp Hr. cbv zeta. unfold ProductController.postProductReview.
  rewrite Hp, Hr. simpl. split; [reflexivity|].
  eexists. split; [reflexivity|].
  unfold ProductController.getProductReviews, Review.findAll; simpl.
  rewrite filter_app, map_app; simpl. now rewrite Z.eqb_refl.
Qed.

Lemma postProductReview_then_getProductReviews_witness :
  Product.findByPk 1 (product Sample.members) = Some Sample.shirt
  /\ Review.findOne 1 1 (reviews Sample.members) = None
  /\ ProductController.getProductReviews 1
       (fst (ProductController.postProductReview 1000 1 "Great" 5
               Sample.members))
     = Sent 200 [Some "Ann"].
Proof.
  split; [reflexivity|]. split; [reflexivity|].
  destruct (proj2 (postProductReview_then_getProductReviews 1000 1 "Great" 5
                     Sample.members Sample.shirt eq_refl eq_refl))
    as (before & Hb & Ha).
  injection Hb as <-. exact Ha.
Defined.

(** X16: [postProductReview] keeps the reviews stored under customer 1 at
    one per product at most, and writes at most one row, for the product of
    the request and under customer 1. *)
Theorem postProductReview_one_per_product (now product_id : Z)
    (review : string) (rating : Z) (db : DB) :
  (forall p, (reviews_of_1 p db <= 1)%nat) ->
  let db1 :=
    fst (ProductController.postProductReview now product_id review rating db) in
  (forall p, (reviews_of_1 p db1 <= 1)%nat)
  /\ (db1 = db
      \/ exists r,
           Review.rows (reviews db1) = Review.rows (reviews db) ++ [r]
           /\ Review.customer_id r = 1
           /\ Review.product_id r = product_id).
Proof.
  intros Hinv. cbv zeta. unfold ProductController.postProductReview.
  destruct (Product.findByPk product_id (product db));
    [|split; [exact Hinv|now left]].
  destruct (Review.findOne product_id 1 (reviews db)) eqn:E;
    [split; [exact Hinv|now left]|].
  simpl. split.
  - intros p. unfold reviews_of_1; simpl.
    rewrite filter_app, length_app; simpl.
    destruct (Z.eqb_spec product_id p) as [<-|Hn]; simpl.
    + pose proof (findOne_none_count _ _ E) as H0.
      unfold reviews_of_1 in H0. rewrite H0. simpl. lia.
    + specialize (Hinv p). unfold reviews_of_1 in Hinv. simpl. lia.
  - right. eexists. now repeat split.
Qed.

Lemma postProductReview_one_per_product_witness :
  (forall p, (reviews_of_1 p Sample.catalog <= 1)%nat)
  /\ forall p,
       (reviews_of_1 p
          (fst (ProductController.postProductReview 1000 1 "Great" 5
                  Sample.catalog)) <= 1)%nat.
Proof.
  assert (forall p, (reviews_of_1 p Sample.catalog <= 1)%nat) as H
    by (intros p; apply Nat.le_0_l).
  split; [exact H|].
  exact (proj1 (postProductReview_one_per_product 1000 1 "Great" 5
                  Sample.catalog H)).
Defined.

(** ** The customer table *)

Lemma findOne_none_email (e : string) (t : Customer.table) :
  Customer.findOne e t = None ->
  ~ In e (map Customer.email (Customer.rows t)).
Proof.
  unfold Customer.findOne. intros H Hin.
  apply in_map_iff in Hin as (c & <- & Hc).
  pose proof (find_none _ _ H c Hc) as Hn. simpl in Hn.
  now rewrite String.eqb_refl in Hn.
Qed.

Lemma NoDup_snoc {A : Type} (l : list A) (x : A) :
  NoDup l -> ~ In x l -> NoDup (l ++ [x]).
Proof.
  intros Hl Hx. induction Hl as [|y l Hy Hl IH]; simpl.
  - constructor; [intros []|constructor].
  - constructor.
    + intros H. apply in_app_or in H as [H|[->|[]]]; [now apply Hy|].
      apply Hx. now left.
    + apply IH. intros H. apply Hx. now right.
Qed.

(** X17: [create] keeps the emails of the customer table distinct. *)
Theorem create_keeps_emails_unique (sc : Schema) (bcrypt : Bcrypt)
    (name email password : string) (db : DB) :
  emails_unique db ->
  emails_unique (fst (CustomerController.create sc bcrypt name email password db)).
Proof.
  unfold emails_unique, CustomerController.create, Customer.findOrCreate.
  intros H.
  destruct (Customer.findOne email (customer db)) eqn:E; simpl; [exact H|].
  rewrite map_app. apply NoDup_snoc; [exact H|].
  now apply findOne_none_email.
Qed.

Lemma create_keeps_emails_unique_witness :
  emails_unique Sample.members
  /\ emails_unique
       (fst (CustomerController.create Sample.plain Sample.bcrypt "Bob"
               "bob@shop.io" "hunter2" Sample.members)).
Proof.
  assert (emails_unique Sample.members) as H.
  { unfold emails_unique; simpl. constructor; [intros []|constructor]. }
  split; [exact H|].
  exact (create_keeps_emails_unique Sample.plain Sample.bcrypt "Bob"
           "bob@shop.io" "hunter2" Sample.members H).
Defined.

Lemma findOne_snoc (e : string) (l : list Customer.row) (c : Customer.row) :
  Customer.email c = e ->
  find (fun r => String.eqb (Customer.email r) e) (l ++ [c]) <> None.
Proof.
  intros <-. induction l as [|r l IH]; simpl.
  - now rewrite String.eqb_refl.
  - now destruct (String.eqb (Customer.email r) (Customer.email c)).
Qed.

(** X18: a second [create] with the email of a first one is answered 409
    and writes nothing, whatever the names and passwords and whether or not
    the first one created the customer. *)
Theorem create_twice_conflict (sc : Schema) (bcrypt : Bcrypt)
    (name1 name2 email password1 password2 : string) (db : DB) :
  let db1 :=
    fst (CustomerController.create sc bcrypt name1 email password1 db) in
  CustomerController.create sc bcrypt name2 email password2 db1
  = (db1,
     Respond 409
       (Error 409 ("User with email " ++ email ++ " already exist")%string)).
Proof.
  cbv zeta.
  assert (Customer.findOne email
            (customer
               (fst (CustomerController.create sc bcrypt name1 email password1
                       db))) <> None) as H.
  { unfold CustomerController.create, Customer.findOrCreate.
    destruct (Customer.findOne email (customer db)) eqn:E; simpl.
    - unfold Customer.findOne in *. now rewrite E.
    - now apply findOne_snoc. }
  set (db1 := fst (CustomerController.create sc bcrypt name1 email password1 db))
    in *.
  unfold CustomerController.create at 1, Customer.findOrCreate.
  destruct (Customer.findOne email (customer db1)); [|now destruct H].
  simpl. now rewrite with_customer_same.
Qed.

(** X19: registration and login fit together: after [create] has
    registered an email that was free, [login] with that email and password
    answers 200 with the new customer's id, name and email and a 24h token
    for that id, as long as the hashing capability accepts a password
    against its own digest. *)
Theorem create_then_login (sc : Schema) (bcrypt : Bcrypt)
    (name email password : string) (db : DB) :
  Customer.findOne email (customer db) = None ->
  compareSync bcrypt password (hashSync bcrypt password) = true ->
  exists pf,
    CustomerController.login bcrypt email password
      (fst (CustomerController.create sc bcrypt name email password db))
    = Respond 200
        (Account pf (mkToken (Customer.next_id (customer db)) "24h") "24h")
    /\ pf_customer_id pf = Customer.next_id (customer db)
    /\ pf_name pf = name
    /\ pf_email pf = email.
Proof.
  intros Hfree Hok.
  unfold CustomerController.create, Customer.findOrCreate. rewrite Hfree.
  simpl. unfold CustomerController.login, Customer.findOne in *; simpl.
  induction (Customer.rows (customer db)) as [|r l IH]; simpl in *.
  - rewrite String.eqb_refl. unfold Customer.beforeCreate; simpl.
    rewrite Hok; simpl. eexists. now repeat split.
  - destruct (String.eqb (Customer.email r) email); [discriminate|].
    now apply IH.
Qed.

Lemma create_then_login_witness :
  Customer.findOne "bob@shop.io" (customer Sample.members) = None
  /\ compareSync Sample.bcrypt "hunter2" (hashSync Sample.bcrypt "hunter2")
     = true
  /\ exists pf,
       CustomerController.login Sample.bcrypt "bob@shop.io" "hunter2"
         (fst (CustomerController.create Sample.plain Sample.bcrypt "Bob"
                 "bob@shop.io" "hunter2" Sample.members))
       = Respond 200 (Account pf (mkToken 2 "24h") "24h")
       /\ pf_customer_id pf = 2
       /\ pf_name pf = "Bob"
       /\ pf_email pf = "bob@shop.io".
Proof.
  split; [reflexivity|]. split; [reflexivity|].
  exact (create_then_login Sample.plain Sample.bcrypt "Bob" "bob@shop.io"
           "hunter2" Sample.members eq_refl eq_refl).
Defined.

Section CustomerUpdate.

Import Customer.

Variables (id : Z) (f : row -> row).
Hypothesis f_id : forall r, customer_id (f r) = customer_id r.

Lemma update_ids (l : list row) :
  map customer_id (map (fun r => if customer_id r =? id then f r else r) l)
  = map customer_id l.
Proof.
  rewrite map_map. apply map_ext. intros r.
  destruct (customer_id r =? id); [apply f_id|reflexivity].
Qed.

Lemma update_find (other : Z) (l : list row) :
  find (fun r => customer_id r =? other)
    (map (fun r => if customer_id r =? id then f r else r) l)
  = option_map (fun r => if customer_id r =? id then f r else r)
      (find (fun r => customer_id r =? other) l).
Proof.
  induction l as [|r l IH]; simpl; [reflexivity|].
  destruct (customer_id r =? id) eqn:E; rewrite ?f_id;
    destruct (customer_id r =? other); simpl; rewrite ?E; auto.
Qed.

Lemma update_absent (l : list row) :
  (forall r, In r l -> customer_id r <> id) ->
  map (fun r => if customer_id r =? id then f r else r) l = l.
Proof.
  intros H. induction l as [|r l IH]; simpl; [reflexivity|].
  rewrite IH by (intros x Hx; apply H; now right).
  pose proof (H r (or_introl eq_refl)) as Hr. apply Z.eqb_neq in Hr.
  now rewrite Hr.
Qed.

End CustomerUpdate.

Section ProfileEmails.

Import Customer.

Variables (id : Z) (e : string) (n : Js.field string).
Variables (d ev m : Js.field (option string)).

Lemma other_none (l : list row) (x : row) :
  find (fun r => String.eqb (email r) e && negb (customer_id r =? id)) l = None ->
  In x l -> email x = e -> customer_id x = id.
Proof.
  intros H Hx He. pose proof (find_none _ _ H x Hx) as Hn. simpl in Hn.
  rewrite He, String.eqb_refl in Hn. simpl in Hn.
  apply negb_false_iff, Z.eqb_eq in Hn. exact Hn.
Qed.

Lemma updated_emails (l : list row) (x : string) :
  In x (map email (map (fun r0 => if customer_id r0 =? id then set_profile e n d ev m r0 else r0) l)) -> x = e \/ In x (map email l).
Proof.
  rewrite map_map. intros H. apply in_map_iff in H as (r & <- & Hr).
  simpl. destruct (customer_id r =? id); [now left|].
  right. now apply in_map.
Qed.

Lemma update_emails_unique (l : list row) :
  NoDup (map customer_id l) -> NoDup (map email l) ->
  find (fun r => String.eqb (email r) e && negb (customer_id r =? id)) l = None ->
  NoDup (map email (map (fun r0 => if customer_id r0 =? id then set_profile e n d ev m r0 else r0) l)).
Proof.
  induction l as [|r l IH]; intros Hids Hem Hfree; [constructor|].
  simpl in Hids, Hem. inversion Hids as [|? ? Hid Hids']; subst.
  inversion Hem as [|? ? Hemail Hem']; subst.
  assert (find (fun r0 => String.eqb (email r0) e && negb (customer_id r0 =? id))
            l = None) as Hfree'.
  { simpl in Hfree. now destruct (String.eqb (email r) e && negb _). }
  simpl.
  destruct (Z.eqb_spec (customer_id r) id) as [Hr|Hr].
  - rewrite (update_absent id (set_profile e n d ev m) l).
    + constructor; [|exact Hem']. simpl. intros H.
      apply in_map_iff in H as (x & He & Hx).
      apply Hid. apply in_map_iff. exists x. split; [|exact Hx].
      rewrite Hr. apply (other_none (r :: l)); [exact Hfree|now right|exact He].
    + intros x Hx Hxid. apply Hid. apply in_map_iff. exists x.
      split; [congruence|exact Hx].
  - constructor; [|now apply IH].
    intros H. apply updated_emails in H as [He|H]; [|now apply Hemail].
    apply Hr. apply (other_none (r :: l)); [exact Hfree|now left|exact He].
Qed.

End ProfileEmails.

(** X20: on a customer table with distinct customer ids and distinct
    emails, [updateCustomerProfile] keeps both distinct.  It answers 403 and
    writes nothing when another customer has the email; a customer may keep
    the own email.  Otherwise it answers 200 with the updated profile, in
    which the fields that the body leaves out keep their stored values, or
    with null when no customer has the id of the token. *)
Theorem updateCustomerProfile_keeps_emails_unique (customerId : Z)
    (email : string) (name : Js.field string)
    (day_phone eve_phone mob_phone : Js.field (option string)) (db : DB) :
  customer_ids_unique db ->
  emails_unique db ->
  let r :=
    CustomerController.updateCustomerProfile customerId email name day_phone
      eve_phone mob_phone db in
  emails_unique (fst r)
  /\ customer_ids_unique (fst r)
  /\ match Customer.findOne_other email customerId (customer db) with
     | Some _ => r = (db, Other (Respond 403 (Message "Email already taken")))
     | None =>
         match Customer.findByPk customerId (customer db) with
         | None => snd r = Sent 200 None
         | Some c =>
             exists pf,
               snd r = Sent 200 (Some pf)
               /\ pf_customer_id pf = customerId
               /\ pf_email pf = email
               /\ pf_name pf = Js.assigned name (Customer.name c)
               /\ pf_day_phone pf = Js.assigned day_phone (Customer.day_phone c)
               /\ pf_eve_phone pf = Js.assigned eve_phone (Customer.eve_phone c)
               /\ pf_mob_phone pf = Js.assigned mob_phone (Customer.mob_phone c)
               /\ pf_credit_card pf = Customer.credit_card c
               /\ pf_address_1 pf = Customer.address_1 c
         end
     end.
Proof.
  intros Hids Hem. cbv zeta.
  unfold CustomerController.updateCustomerProfile.
  unfold emails_unique, customer_ids_unique in *.
  destruct (Customer.findOne_other email customerId (customer db)) eqn:E;
    [simpl; repeat split; assumption|].
  simpl. split; [|split].
  - now apply update_emails_unique.
  - now rewrite update_ids.
  - unfold Customer.findByPk, Customer.update; simpl.
    rewrite update_find by reflexivity.
    destruct (find _ (Customer.rows (customer db))) as [c|] eqn:Ec;
      [|reflexivity].
    apply find_some in Ec as [_ Ec]. simpl. rewrite Ec.
    apply Z.eqb_eq in Ec. eexists. split; [reflexivity|]. now repeat split.
Qed.

Lemma updateCustomerProfile_keeps_emails_unique_witness :
  customer_ids_unique Sample.reachable
  /\ emails_unique Sample.reachable
  /\ emails_unique
       (fst (CustomerController.updateCustomerProfile 1 "ann@mail.io"
               (Js.Present "Ann B") Js.Absent Js.Absent (Js.Present None)
               Sample.reachable))
  /\ exists pf,
       snd (CustomerController.updateCustomerProfile 1 "ann@mail.io"
              (Js.Present "Ann B") Js.Absent Js.Absent (Js.Present None)
              Sample.reachable)
       = Sent 200 (Some pf)
       /\ pf_name pf = "Ann B"
       /\ pf_day_phone pf = Some "555"
       /\ pf_mob_phone pf = None.
Proof.
  assert (customer_ids_unique Sample.reachable) as H1.
  { unfold customer_ids_unique; simpl. constructor; [intros []|constructor]. }
  assert (emails_unique Sample.reachable) as H2.
  { unfold emails_unique; simpl. constructor; [intros []|constructor]. }
  split; [exact H1|]. split; [exact H2|].
  destruct (updateCustomerProfile_keeps_emails_unique 1 "ann@mail.io"
              (Js.Present "Ann B") Js.Absent Js.Absent (Js.Present None)
              Sample.reachable H1 H2) as (He & _ & pf & Hout & _ & _ & Hn & Hd & _ & Hm & _).
  split; [exact He|].
  exists pf. split; [exact Hout|]. now repeat split.
Defined.

(** X21: [updateCreditCard] stores the card number a body holds as it is
    given and answers with it unmasked; a body without a card number leaves
    the stored one.  [getCustomerProfile] then shows what is stored.
    Nothing else changes: every other customer's profile, and every email
    and password, are as before.  For an id no customer has the answer is
    200 with null. *)
Theorem updateCreditCard_profile (customerId : Z)
    (credit_card : Js.field (option string)) (db : DB) :
  let r := CustomerController.updateCreditCard customerId credit_card db in
  let table d := Customer.rows (customer d) in
  (forall other,
     other <> customerId ->
     CustomerController.getCustomerProfile other (fst r)
     = CustomerController.getCustomerProfile other db)
  /\ map Customer.email (table (fst r)) = map Customer.email (table db)
  /\ map Customer.password (table (fst r)) = map Customer.password (table db)
  /\ match Customer.findByPk customerId (customer db) with
     | Some c =>
         let shown := profile_of (Customer.set_credit_card credit_card c) in
         snd r = Sent 200 (Some shown)
         /\ CustomerController.getCustomerProfile customerId (fst r)
            = Sent 200 shown
         /\ pf_credit_card shown
            = match credit_card with
              | Js.Present card => card
              | Js.Absent => Customer.credit_card c
              end
         /\ pf_email shown = Customer.email c
         /\ pf_name shown = Customer.name c
     | None =>
         snd r = Sent 200 None
         /\ CustomerController.getCustomerProfile customerId (fst r)
            = Other (Respond 404 (Text "The user does not exist"))
     end.
Proof.
  cbv zeta.
  unfold CustomerController.updateCreditCard,
    CustomerController.getCustomerProfile, Customer.findByPk, Customer.update.
  simpl. split; [|split; [|split]].
  - intros other Hne. rewrite update_find by reflexivity.
    destruct (find _ (Customer.rows (customer db))) as [c|] eqn:E;
      [|reflexivity].
    apply find_some in E as [_ E]. apply Z.eqb_eq in E. simpl.
    destruct (Z.eqb_spec (Customer.customer_id c) customerId); [congruence|].
    reflexivity.
  - rewrite map_map. apply map_ext. intros c.
    now destruct (Customer.customer_id c =? customerId).
  - rewrite map_map. apply map_ext. intros c.
    now destruct (Customer.customer_id c =? customerId).
  - rewrite update_find by reflexivity.
    destruct (find _ (Customer.rows (customer db))) as [c|] eqn:E; simpl.
    + apply find_some in E as [_ E]. rewrite E.
      repeat split; now destruct credit_card.
    + now split.
Qed.
